(** * The deposit pipeline of doi_request

    A shallow embedding of [doi_request/depositor.py] (class [Depositor]) and
    of the batch driver [processing/exportDOI.py] (class [ExportDOI]).

    The SQLAlchemy session, the ArticleMeta catalog, the wall clock, the
    case folding of [str.lower] and the lxml parser, serialiser and schema
    engine are collaborators of the code:
    the session is modelled as a store with a committed and a pending view,
    the others are the fields of [Collaborators], which the pipeline takes
    as a section variable. *)

From Stdlib Require Import List String Ascii Bool ZArith Arith Lia Sorted.
Import ListNotations.

Local Open Scope string_scope.
Local Open Scope Z_scope.

Set Implicit Arguments.
Set Warnings "-register-all".

(** ** Python values the code relies on *)

(** An exception, with the class the interpreter raises and its message. *)
Inductive exn : Type :=
| AttributeError (msg : string)
| TypeError (msg : string)
| Failure (msg : string).

Definition str_of_exn (e : exn) : string :=
  match e with
  | AttributeError m => m
  | TypeError m => m
  | Failure m => m
  end.

(** A call either returns a value or raises. *)
Inductive result (A : Type) : Type :=
| Ok (a : A)
| Raise (e : exn).

Arguments Ok {A} a.
Arguments Raise {A} e.

Definition bind {A B : Type} (r : result A) (k : A -> result B) : result B :=
  match r with
  | Ok a => k a
  | Raise e => Raise e
  end.

Notation "x <- c ;; k" := (bind c (fun x => k))
  (at level 61, c at next level, right associativity).

(** ** Strings *)

Module Str.

(** Case folding of ASCII text, character by character: what [lower()] does
    to a string of ASCII characters. The sample deployments use it as
    their [lower()]; the pipeline takes [lower()] from its collaborators. *)
Definition lower_ascii (c : ascii) : ascii :=
  let n := nat_of_ascii c in
  if (Nat.leb 65 n && Nat.leb n 90)%bool then ascii_of_nat (n + 32) else c.

Fixpoint lower (s : string) : string :=
  match s with
  | EmptyString => EmptyString
  | String c r => String (lower_ascii c) (lower r)
  end.

(** [s.split('/')[0]]: what stands before the first slash, all of [s] when
    it has none. *)
Fixpoint before_slash (s : string) : string :=
  match s with
  | EmptyString => EmptyString
  | String c r => if Ascii.eqb c "/"%char then EmptyString
                  else String c (before_slash r)
  end.

(** Truth value of a [str]-or-[None] attribute. *)
Definition truthy (o : option string) : bool :=
  match o with
  | None => false
  | Some s => negb (String.eqb s "")
  end.

End Str.

(** ** XML documents (lxml) *)

Module Xml.

(** An element: qualified tag, text, children in document order. *)
Inductive element : Type :=
| Element (tag : string) (text : option string) (children : list element).

Definition tag_of (e : element) : string :=
  match e with Element t _ _ => t end.

Definition text_of (e : element) : option string :=
  match e with Element _ x _ => x end.

Definition children_of (e : element) : list element :=
  match e with Element _ _ cs => cs end.

(** First element named [tag] among [e] and its descendants, in document
    order. *)
Fixpoint first_in (tag : string) (e : element) : option element :=
  match e with
  | Element t _ cs =>
      if String.eqb t tag then Some e
      else (fix among (l : list element) : option element :=
              match l with
              | [] => None
              | c :: r => match first_in tag c with
                          | Some f => Some f
                          | None => among r
                          end
              end) cs
  end.

Fixpoint first_among (tag : string) (l : list element) : option element :=
  match l with
  | [] => None
  | c :: r => match first_in tag c with
              | Some f => Some f
              | None => first_among tag r
              end
  end.

(** [tree.find('//' + tag)]: lxml turns the path into [.//tag] from the
    root, so the root itself is not a candidate. *)
Definition find (tag : string) (root : element) : option element :=
  first_among tag (children_of root).

(** [tree.find('//' + tag).text = v], functionally: the first element
    named [tag] gets text [v]; [None] when there is no such element. *)
Fixpoint set_text_in (tag v : string) (e : element) : option element :=
  match e with
  | Element t x cs =>
      if String.eqb t tag then Some (Element t (Some v) cs)
      else match (fix among (l : list element) : option (list element) :=
                    match l with
                    | [] => None
                    | c :: r => match set_text_in tag v c with
                                | Some c' => Some (c' :: r)
                                | None => match among r with
                                          | Some r' => Some (c :: r')
                                          | None => None
                                          end
                                end
                    end) cs with
           | Some cs' => Some (Element t x cs')
           | None => None
           end
  end.

Fixpoint set_text_among (tag v : string) (l : list element)
  : option (list element) :=
  match l with
  | [] => None
  | c :: r => match set_text_in tag v c with
              | Some c' => Some (c' :: r)
              | None => match set_text_among tag v r with
                        | Some r' => Some (c :: r')
                        | None => None
                        end
              end
  end.

Definition set_text (tag v : string) (root : element) : option element :=
  match root with
  | Element t x cs =>
      match set_text_among tag v cs with
      | Some cs' => Some (Element t x cs')
      | None => None
      end
  end.

Definition ns (name : string) : string :=
  "{http://www.crossref.org/schema/4.4.0}" ++ name.

End Xml.

(** What [xml_is_valid] hands back as its second component: the empty string
    when parsing failed, the parsed tree otherwise. *)
Inductive pyval : Type :=
| PyStr (s : string)
| PyTree (t : Xml.element).

(** ** Rows (doi_request.models.depositor) *)

(** A document record of the catalog, with the three attributes [deposit]
    reads; [doi] is [None] when the record has none. *)
Record Document : Type := mkDocument {
  collection_acronym : string;
  publisher_id : string;
  doi : option string
}.

(** Modelled from the spec: the class [Deposit] of
    [doi_request.models.depositor], which is not among the sources. One row
    per document code; the columns are the attributes [deposit] passes to
    the constructor or assigns, and the ones it does not set at creation
    are optional. *)
Record Deposit : Type := mkDeposit {
  dep_code : string;
  dep_pid : string;
  dep_collection_acronym : string;
  dep_xml_file_name : string;
  dep_doi : option string;
  dep_prefix : string;
  submission_status : string;
  feedback_status : option string;
  is_xml_valid : option bool;
  submission_xml : option string;
  doi_batch_id : option string;
  started_at : Z;
  updated_at : Z;
  submission_updated_at : Z;
  feedback_updated_at : option Z
}.

(** Modelled from the spec: the class [LogEvent] of
    [doi_request.models.depositor], which is not among the sources. An
    append-only record tied to a row by the value of [deposit_code].
    [ev_body] is the detail as text. Line 148 assigns the exception object
    itself, kept here by its message; what the session makes of that object
    when it next flushes is decided by the type of the column, so the
    statements about a call of [deposit] that depend on what is pending are
    made for a session that holds nothing pending. *)
Record LogEvent : Type := mkLogEvent {
  ev_title : string;
  ev_body : option string;
  ev_type : string;
  ev_status : string;
  ev_deposit_code : string;
  ev_date : Z
}.

(** [Deposit(code=..., pid=..., ...)] as [deposit] calls the constructor:
    the columns it does not name stay unset. *)
Definition Deposit_new (code pid collection xml_file_name : string)
  (doi : option string) (prefix : string) (now : Z) : Deposit :=
  {| dep_code := code;
     dep_pid := pid;
     dep_collection_acronym := collection;
     dep_xml_file_name := xml_file_name;
     dep_doi := doi;
     dep_prefix := prefix;
     submission_status := "waiting";
     feedback_status := None;
     is_xml_valid := None;
     submission_xml := None;
     doi_batch_id := None;
     started_at := now;
     updated_at := now;
     submission_updated_at := now;
     feedback_updated_at := None |}.

(** Attribute assignments on a [Deposit]. *)
Definition set_submission_status (v : string) (d : Deposit) : Deposit :=
  mkDeposit (dep_code d) (dep_pid d) (dep_collection_acronym d)
    (dep_xml_file_name d) (dep_doi d) (dep_prefix d)
    v (feedback_status d) (is_xml_valid d) (submission_xml d)
    (doi_batch_id d) (started_at d) (updated_at d)
    (submission_updated_at d) (feedback_updated_at d).

Definition set_feedback_status (v : string) (d : Deposit) : Deposit :=
  mkDeposit (dep_code d) (dep_pid d) (dep_collection_acronym d)
    (dep_xml_file_name d) (dep_doi d) (dep_prefix d)
    (submission_status d) (Some v) (is_xml_valid d) (submission_xml d)
    (doi_batch_id d) (started_at d) (updated_at d)
    (submission_updated_at d) (feedback_updated_at d).

Definition set_is_xml_valid (v : bool) (d : Deposit) : Deposit :=
  mkDeposit (dep_code d) (dep_pid d) (dep_collection_acronym d)
    (dep_xml_file_name d) (dep_doi d) (dep_prefix d)
    (submission_status d) (feedback_status d) (Some v) (submission_xml d)
    (doi_batch_id d) (started_at d) (updated_at d)
    (submission_updated_at d) (feedback_updated_at d).

Definition set_submission_xml (v : string) (d : Deposit) : Deposit :=
  mkDeposit (dep_code d) (dep_pid d) (dep_collection_acronym d)
    (dep_xml_file_name d) (dep_doi d) (dep_prefix d)
    (submission_status d) (feedback_status d) (is_xml_valid d) (Some v)
    (doi_batch_id d) (started_at d) (updated_at d)
    (submission_updated_at d) (feedback_updated_at d).

Definition set_doi_batch_id (v : option string) (d : Deposit) : Deposit :=
  mkDeposit (dep_code d) (dep_pid d) (dep_collection_acronym d)
    (dep_xml_file_name d) (dep_doi d) (dep_prefix d)
    (submission_status d) (feedback_status d) (is_xml_valid d)
    (submission_xml d) v (started_at d) (updated_at d)
    (submission_updated_at d) (feedback_updated_at d).

Definition set_updated_at (v : Z) (d : Deposit) : Deposit :=
  mkDeposit (dep_code d) (dep_pid d) (dep_collection_acronym d)
    (dep_xml_file_name d) (dep_doi d) (dep_prefix d)
    (submission_status d) (feedback_status d) (is_xml_valid d)
    (submission_xml d) (doi_batch_id d) (started_at d) v
    (submission_updated_at d) (feedback_updated_at d).

Definition set_submission_updated_at (v : Z) (d : Deposit) : Deposit :=
  mkDeposit (dep_code d) (dep_pid d) (dep_collection_acronym d)
    (dep_xml_file_name d) (dep_doi d) (dep_prefix d)
    (submission_status d) (feedback_status d) (is_xml_valid d)
    (submission_xml d) (doi_batch_id d) (started_at d) (updated_at d)
    v (feedback_updated_at d).

Definition set_feedback_updated_at (v : Z) (d : Deposit) : Deposit :=
  mkDeposit (dep_code d) (dep_pid d) (dep_collection_acronym d)
    (dep_xml_file_name d) (dep_doi d) (dep_prefix d)
    (submission_status d) (feedback_status d) (is_xml_valid d)
    (submission_xml d) (doi_batch_id d) (started_at d) (updated_at d)
    (submission_updated_at d) (Some v).

(** ** The store and the session (doi_request.models.DBSession)

    Modelled from the spec: [DBSession] is declared in [doi_request.models],
    which is not among the sources. It is taken as a SQLAlchemy session in
    its default mode over the two tables: changes are pending until
    [commit], queries see them, and nothing is committed implicitly. *)

Record Store : Type := mkStore {
  deposits : list Deposit;
  logevents : list LogEvent
}.

(** [committed] is what the database holds durably; [session] is what the
    session sees, the committed rows with its own pending changes applied
    (queries flush first). [clock_reads] counts the calls of
    [datetime.now()], [fetches] lists the XML requests sent to the catalog,
    oldest first. *)
Record World : Type := mkWorld {
  committed : Store;
  session : Store;
  clock_reads : nat;
  fetches : list (string * string)
}.

Definition has_code (code : string) (d : Deposit) : bool :=
  String.eqb (dep_code d) code.

Definition for_code (code : string) (e : LogEvent) : bool :=
  String.eqb (ev_deposit_code e) code.

(** The rows of a table that carry [code]. *)
Definition rows_of (code : string) (l : list Deposit) : list Deposit :=
  filter (has_code code) l.

Definition events_of (code : string) (l : list LogEvent) : list LogEvent :=
  filter (for_code code) l.

(** An attribute assignment reaches the row stored under [code]. *)
Definition update_rows (code : string) (f : Deposit -> Deposit)
  (l : list Deposit) : list Deposit :=
  map (fun d => if has_code code d then f d else d) l.

Fixpoint remove_first (code : string) (l : list Deposit) : list Deposit :=
  match l with
  | [] => []
  | d :: r => if has_code code d then r else d :: remove_first code r
  end.

Module DBSession.

Definition with_session (s : Store) (w : World) : World :=
  mkWorld (committed w) s (clock_reads w) (fetches w).

(** [DBSession.query(Deposit).filter_by(code=code).first()] *)
Definition first_by_code (code : string) (w : World) : option Deposit :=
  List.find (has_code code) (deposits (session w)).

(** [DBSession.delete(deposit)]. Modelled from the spec: the relation from
    [LogEvent] to [Deposit] is by value and does not cascade, so the row
    goes and its events stay. *)
Definition delete (d : Deposit) (w : World) : World :=
  with_session
    (mkStore (remove_first (dep_code d) (deposits (session w)))
             (logevents (session w))) w.

(** [DBSession.add(depitem)] *)
Definition add (d : Deposit) (w : World) : World :=
  with_session
    (mkStore (deposits (session w) ++ [d]) (logevents (session w))) w.

(** [DBSession.add(logevent)] *)
Definition add_event (e : LogEvent) (w : World) : World :=
  with_session
    (mkStore (deposits (session w)) (logevents (session w) ++ [e])) w.

(** [depitem.attr = v] on the object the session holds under [code]. *)
Definition assign (code : string) (f : Deposit -> Deposit) (w : World)
  : World :=
  with_session
    (mkStore (update_rows code f (deposits (session w)))
             (logevents (session w))) w.

(** [DBSession.commit()] *)
Definition commit (w : World) : World :=
  mkWorld (session w) (session w) (clock_reads w) (fetches w).

End DBSession.

(** ** Collaborators *)

(** A compiled schema, [etree.XMLSchema(sch_doc)], is what its [assertValid]
    does: [None] when the tree conforms, [Some msg] when it raises
    [DocumentInvalid] and [str(e) = msg]. *)
Record XMLSchema : Type := mkXMLSchema {
  assertValid : Xml.element -> option string
}.

Record Collaborators : Type := mkCollaborators {
  (** the value of the [n]-th call of [datetime.now()] *)
  now_at : nat -> Z;
  (** [etree.XMLSchema(etree.parse(CROSSREF_XSD))], as it turns out when the
      depositor is constructed; [CROSSREF_XSD] is a file opened when the
      module is loaded, so this is the outcome for the first depositor of
      the process *)
  crossref_xsd : result XMLSchema;
  (** [etree.parse(BytesIO(xml.encode('utf-8')))] *)
  etree_parse : string -> result Xml.element;
  (** [etree.tostring(tree, encoding='utf-8', pretty_print=True).decode('utf-8')] *)
  etree_tostring : Xml.element -> string;
  (** [ThriftClient.document(pid, collection, fmt='xmlcrossref')] *)
  articlemeta_document : string -> string -> result string;
  (** [ThriftClient.documents(collection, issn, from_date, until_date)] *)
  articlemeta_documents :
    string -> option string -> string -> string -> list Document;
  (** [s.lower()] of Python's [str], with the case folding of the
      interpreter, letters outside ASCII included *)
  str_lower : string -> string
}.

(** A depositor constructed with a prefix. Constructed without one ([None],
    the default of [ExportDOI] and of [--prefix]), line 110 raises
    [AttributeError] for every document, once the fresh row is committed:
    such a depositor is not a value of this record. *)
Record Depositor : Type := mkDepositor {
  prefix : string;
  api_user : option string;
  api_key : option string;
  depositor_name : option string;
  depositor_email : option string;
  test_mode : bool;
  (** [None]: the attribute was never assigned *)
  crossref_schema : option XMLSchema
}.

Section Pipeline.

Variable E : Collaborators.

(** [datetime.now()] *)
Definition datetime_now (w : World) : Z * World :=
  (now_at E (clock_reads w),
   mkWorld (committed w) (session w) (S (clock_reads w)) (fetches w)).

(** [self._articlemeta.document(pid, collection, fmt='xmlcrossref')] *)
Definition fetch_xml (pid collection : string) (w : World)
  : result string * World :=
  (articlemeta_document E pid collection,
   mkWorld (committed w) (session w) (clock_reads w)
           (fetches w ++ [(pid, collection)])).

(** [Depositor._parse_schema]: the new [self] and the value returned
    ([Some false] for [return False], [None] for falling off the end). *)
Definition _parse_schema (self : Depositor) : Depositor * option bool :=
  match crossref_xsd E with
  | Raise _ => (self, Some false)
  | Ok sch =>
      (mkDepositor (prefix self) (api_user self) (api_key self)
         (depositor_name self) (depositor_email self) (test_mode self)
         (Some sch), None)
  end.

(** [Depositor.__init__] *)
Definition __init__ (prefix : string) (api_user api_key : option string)
  (depositor_name depositor_email : option string) (test_mode : bool)
  : result Depositor :=
  let self := mkDepositor prefix api_user api_key depositor_name
                depositor_email test_mode None in
  let '(self, _) := _parse_schema self in
  Ok self.

(** [xml.find('//' + tag).text = v] *)
Definition assign_text (tag v : string) (xml : Xml.element)
  : result Xml.element :=
  match Xml.set_text tag v xml with
  | Some xml' => Ok xml'
  | None => Raise (AttributeError "'NoneType' object has no attribute 'text'")
  end.

(** [Depositor._setup_depositor] *)
Definition _setup_depositor (self : Depositor) (xml : Xml.element)
  : result Xml.element :=
  xml <- match depositor_name self with
         | Some name =>
             if Str.truthy (Some name) then
               xml <- assign_text (Xml.ns "registrant") name xml ;;
               assign_text (Xml.ns "depositor_name") name xml
             else Ok xml
         | None => Ok xml
         end ;;
  xml <- match depositor_email self with
         | Some email =>
             if Str.truthy (Some email) then
               assign_text (Xml.ns "email_address") email xml
             else Ok xml
         | None => Ok xml
         end ;;
  Ok xml.

(** [Depositor.xml_is_valid] *)
Definition xml_is_valid (self : Depositor) (xml : string)
  : result (bool * pyval * string) :=
  match etree_parse E xml with
  | Raise e => Ok (false, PyStr "", str_of_exn e)
  | Ok xml_doc =>
      xml_doc <- _setup_depositor self xml_doc ;;
      match crossref_schema self with
      | None =>
          Raise (AttributeError
                   "'Depositor' object has no attribute 'crossref_schema'")
      | Some sch =>
          match assertValid sch xml_doc with
          | None => Ok (true, PyTree xml_doc, "")
          | Some msg => Ok (false, PyTree xml_doc, msg)
          end
      end
  end.

(** [etree.tostring(parsed_xml, ...)]: lxml serialises elements and trees
    and raises [TypeError] on anything else. *)
Definition tostring (v : pyval) : result string :=
  match v with
  | PyTree t => Ok (etree_tostring E t)
  | PyStr _ => Raise (TypeError "Type 'str' cannot be serialized.")
  end.

(** [parsed_xml.find('//' + tag).text] *)
Definition find_text (tag : string) (v : pyval) : result (option string) :=
  match v with
  | PyTree t =>
      match Xml.find tag t with
      | Some e => Ok (Xml.text_of e)
      | None =>
          Raise (AttributeError "'NoneType' object has no attribute 'text'")
      end
  | PyStr _ => Raise (AttributeError "'int' object has no attribute 'text'")
  end.

(** The code of a document and its DOI prefix, lines 82 and 86. *)
Definition code_of (document : Document) : string :=
  collection_acronym document ++ "_" ++ publisher_id document.

Definition doi_prefix_of (document : Document) : string :=
  match doi document with
  | Some d => if Str.truthy (Some d) then Str.before_slash d else ""
  | None => ""
  end.

(** Lines 101-105: the row found under [code], if any, is deleted and the
    deletion committed. *)
Definition delete_existing (code : string) (w : World) : World :=
  match DBSession.first_by_code code w with
  | Some deposit => DBSession.commit (DBSession.delete deposit w)
  | None => w
  end.

(** Lines 107-108. *)
Definition insert_fresh (depitem : Deposit) (w : World) : World :=
  DBSession.commit (DBSession.add depitem w).

(** Lines 110-192 of [deposit], from the prefix gate on: [now] is the reading
    of the clock taken at line 87 and [w] the world at line 109, once the row
    is replaced and inserted. *)
Definition deposit_rest (self : Depositor) (document : Document) (now : Z)
  (w : World) : result unit * World :=
  let code := code_of document in
  let doi_prefix := doi_prefix_of document in
  if negb (String.eqb (str_lower E doi_prefix) (str_lower E (prefix self)))
  then
    let '(now, w) := datetime_now w in
    let log_title :=
      "Document DOI prefix (" ++ doi_prefix
        ++ ") do no match with the collection prefix ("
        ++ prefix self ++ ")" in
    let w := DBSession.assign code (set_submission_status "notapplicable") w in
    let w := DBSession.assign code (set_feedback_status "notapplicable") w in
    let w := DBSession.assign code (set_submission_updated_at now) w in
    let w := DBSession.assign code (set_feedback_updated_at now) w in
    let w := DBSession.assign code (set_updated_at now) w in
    let logevent :=
      mkLogEvent log_title None "general" "notapplicable" code now in
    let w := DBSession.add_event logevent w in
    let w := DBSession.commit w in
    (Ok tt, w)
  else
    let log_title :=
      "Loading XML document from ArticleMeta (" ++ code ++ ")" in
    let logevent := mkLogEvent log_title None "submission" "info" code now in
    let w := DBSession.add_event logevent w in
    let '(fetched, w) :=
      fetch_xml (publisher_id document) (collection_acronym document) w in
    match fetched with
    | Raise exc =>
        let '(now, w) := datetime_now w in
        let log_title :=
          "Fail to load XML document from ArticleMeta (" ++ code ++ ")" in
        let w := DBSession.assign code (set_submission_status "error") w in
        let w := DBSession.assign code (set_submission_updated_at now) w in
        let w := DBSession.assign code (set_updated_at now) w in
        let logevent :=
          mkLogEvent log_title (Some (str_of_exn exc)) "submission" "error"
            code now in
        let w := DBSession.add_event logevent w in
        (Ok tt, w)
    | Ok xml =>
        let w := DBSession.commit w in
        match xml_is_valid self xml with
        | Raise e => (Raise e, w)
        | Ok (is_valid, parsed_xml, exc) =>
            match tostring parsed_xml with
            | Raise e => (Raise e, w)
            | Ok serialised =>
                let w :=
                  DBSession.assign code (set_submission_xml serialised) w in
                if negb is_valid then
                  let log_title :=
                    "XML is invalid, fail to parse xml for document ("
                      ++ code ++ ")" in
                  let '(now, w) := datetime_now w in
                  let w := DBSession.assign code (set_is_xml_valid false) w in
                  let w :=
                    DBSession.assign code (set_submission_status "error") w in
                  let w :=
                    DBSession.assign code (set_submission_updated_at now) w in
                  let w := DBSession.assign code (set_updated_at now) w in
                  let logevent :=
                    mkLogEvent log_title (Some exc) "submission" "error"
                      code now in
                  let w := DBSession.add_event logevent w in
                  let w := DBSession.commit w in
                  (Ok tt, w)
                else
                  let log_title :=
                    "XML is valid, it will be submitted to Crossref" in
                  let '(now, w) := datetime_now w in
                  let w := DBSession.assign code (set_is_xml_valid true) w in
                  let w :=
                    DBSession.assign code (set_submission_status "waiting") w
                  in
                  match find_text (Xml.ns "doi_batch_id") parsed_xml with
                  | Raise e => (Raise e, w)
                  | Ok batch_id =>
                      let w :=
                        DBSession.assign code (set_doi_batch_id batch_id) w in
                      let '(date, w) := datetime_now w in
                      let logevent :=
                        mkLogEvent log_title None "submission" "success"
                          code date in
                      let w := DBSession.add_event logevent w in
                      let w := DBSession.commit w in
                      (Ok tt, w)
                  end
            end
        end
    end.

(** [Depositor.deposit]: the outcome of the call and the world it leaves.
    Lines 82-108 here, the rest in [deposit_rest]. *)
Definition deposit (self : Depositor) (document : Document) (w : World)
  : result unit * World :=
  let code := code_of document in
  let xml_file_name := code ++ ".xml" in
  let doi_prefix := doi_prefix_of document in
  let '(now, w) := datetime_now w in
  let depitem :=
    Deposit_new code (publisher_id document) (collection_acronym document)
      xml_file_name (doi document) doi_prefix now in
  let w := delete_existing code w in
  let w := insert_fresh depitem w in
  deposit_rest self document now w.

(** ** The batch driver (processing/exportDOI.py) *)

Record ExportDOI : Type := mkExportDOI {
  _depositor : Depositor;
  collection : string;
  from_date : string;
  until_date : string;
  issns : list (option string)
}.

(** [ExportDOI.__init__]; [issns or [None]] keeps a non-empty list and
    turns [None] and the empty list into [[None]]. *)
Definition ExportDOI_init (collection : string)
  (issns : option (list (option string))) (from_date until_date : string)
  (prefix : string) (api_user api_key : option string)
  (depositor_name depositor_email : option string) (test_mode : bool)
  : result ExportDOI :=
  depositor <- __init__ prefix api_user api_key depositor_name
                 depositor_email test_mode ;;
  Ok (mkExportDOI depositor collection from_date until_date
        match issns with
        | Some (i :: r) => i :: r
        | _ => [None]
        end).

(** The inner loop of [run]: an exception of [deposit] leaves the loop. *)
Fixpoint deposit_each (self : Depositor) (documents : list Document)
  (w : World) : result unit * World :=
  match documents with
  | [] => (Ok tt, w)
  | document :: rest =>
      match deposit self document w with
      | (Ok _, w') => deposit_each self rest w'
      | (Raise e, w') => (Raise e, w')
      end
  end.

(** The outer loop of [run], over the ISSNs still to visit. *)
Fixpoint run_issns (self : ExportDOI) (todo : list (option string))
  (w : World) : result unit * World :=
  match todo with
  | [] => (Ok tt, w)
  | issn :: rest =>
      match deposit_each (_depositor self)
              (articlemeta_documents E (collection self) issn
                 (from_date self) (until_date self)) w with
      | (Ok _, w') => run_issns self rest w'
      | (Raise e, w') => (Raise e, w')
      end
  end.

(** [ExportDOI.run] *)
Definition run (self : ExportDOI) (w : World) : result unit * World :=
  run_issns self (issns self) w.

(** The documents [run] iterates over, in order. *)
Definition documents_of (self : ExportDOI) : list Document :=
  List.concat (map (fun issn =>
                 articlemeta_documents E (collection self) issn
                   (from_date self) (until_date self))
              (issns self)).

(** [deposit] called on each document in turn, whatever each call's
    outcome: the store after any number of invocations. *)
Definition deposit_seq (self : Depositor) (documents : list Document)
  (w : World) : World :=
  fold_left (fun w document => snd (deposit self document w)) documents w.

End Pipeline.

Definition empty_store : Store := mkStore [] [].

Definition empty_world : World := mkWorld empty_store empty_store 0 [].

Definition codes (s : Store) : list string := map dep_code (deposits s).

(** ** Vocabulary of the statements *)

(** The row [deposit] builds at lines 88-99 when the clock reads [now]. *)
Definition fresh_row (document : Document) (now : Z) : Deposit :=
  Deposit_new (code_of document) (publisher_id document)
    (collection_acronym document) (code_of document ++ ".xml")
    (doi document) (doi_prefix_of document) now.

(** The columns a row is given at lines 88-99 and that tell one row of a code
    from another: the identifiers of the document and the time the call
    began. *)
Definition identity (d : Deposit)
  : string * string * string * string * option string * string * Z :=
  (dep_code d, dep_pid d, dep_collection_acronym d, dep_xml_file_name d,
   dep_doi d, dep_prefix d, started_at d).

(** The test of line 110, negated: the prefixes agree up to case. *)
Definition prefix_matches (E : Collaborators) (self : Depositor)
  (document : Document) : bool :=
  String.eqb (str_lower E (doi_prefix_of document))
    (str_lower E (prefix self)).

(** What the gate needs of [lower()] to be blind to case: lowering twice is
    lowering once, and the part before the first slash of a lowered string
    is the lowered part before the first slash. *)
Definition lower_regular (E : Collaborators) : Prop :=
  (forall s, str_lower E (str_lower E s) = str_lower E s)
  /\ (forall s,
        Str.before_slash (str_lower E s) = str_lower E (Str.before_slash s)).

(** The world at line 109, after the replace and the insert. *)
Definition after_upsert (E : Collaborators) (document : Document) (w : World)
  : World :=
  insert_fresh (fresh_row document (now_at E (clock_reads w)))
    (delete_existing (code_of document) (snd (datetime_now E w))).

Definition mismatch_title (self : Depositor) (document : Document) : string :=
  "Document DOI prefix (" ++ doi_prefix_of document
    ++ ") do no match with the collection prefix (" ++ prefix self ++ ")".

Definition loading_title (document : Document) : string :=
  "Loading XML document from ArticleMeta (" ++ code_of document ++ ")".

Definition fetch_failed_title (document : Document) : string :=
  "Fail to load XML document from ArticleMeta (" ++ code_of document ++ ")".

Definition invalid_title (document : Document) : string :=
  "XML is invalid, fail to parse xml for document ("
    ++ code_of document ++ ")".

Definition valid_title : string :=
  "XML is valid, it will be submitted to Crossref".

(** The kind of an event: its type and its status. *)
Definition kind (e : LogEvent) : string * string := (ev_type e, ev_status e).

(** Successive readings of the clock never step back. *)
Definition monotone_clock (E : Collaborators) : Prop :=
  forall i j : nat, (i <= j)%nat -> now_at E i <= now_at E j.



(** ** A sample deployment

    A catalog of five documents, a clock that ticks ten units per reading, a
    serialiser, a parser that reads back what the serialiser writes, and a
    schema that asks for a [doi_batch_id] and a [body]. *)

Module Sample.

Fixpoint render (e : Xml.element) : string :=
  match e with
  | Xml.Element t x cs =>
      "<" ++ t ++ ">"
        ++ match x with Some s => s | None => "" end
        ++ (fix all (l : list Xml.element) : string :=
              match l with
              | [] => ""
              | c :: r => render c ++ all r
              end) cs
        ++ "</" ++ t ++ ">"
  end.

Definition leaf (name : string) (text : option string) : Xml.element :=
  Xml.Element (Xml.ns name) text [].

(** A deposit file: the batch id, the depositor's name and address, the
    registrant (the depositor again), and a body or none. *)
Definition batch (id : string) (name email : option string) (body : bool)
  : Xml.element :=
  Xml.Element (Xml.ns "doi_batch") None
    (Xml.Element (Xml.ns "head") None
       [ leaf "doi_batch_id" (Some id);
         Xml.Element (Xml.ns "depositor") None
           [ leaf "depositor_name" name; leaf "email_address" email ];
         leaf "registrant" name ]
     :: if body then [leaf "body" None] else []).

Definition good_tree : Xml.element := batch "a1b2c3d4" None None true.

(** No [body]: well formed, rewritable, not valid. *)
Definition bodiless_tree : Xml.element := batch "e5f6a7b8" None None false.

(** No [registrant]: well formed, but the rewriter finds nothing to set. *)
Definition unregistered_tree : Xml.element :=
  Xml.Element (Xml.ns "doi_batch") None
    [ Xml.Element (Xml.ns "head") None
        [ leaf "doi_batch_id" (Some "c9d0e1f2");
          Xml.Element (Xml.ns "depositor") None
            [ leaf "depositor_name" None; leaf "email_address" None ] ];
      leaf "body" None ].

Definition parse (xml : string) : result Xml.element :=
  if String.eqb xml (render good_tree) then Ok good_tree
  else if String.eqb xml (render bodiless_tree) then Ok bodiless_tree
  else if String.eqb xml (render unregistered_tree) then Ok unregistered_tree
  else Raise (Failure "Document is empty, line 1, column 1").

Definition schema : XMLSchema :=
  mkXMLSchema (fun t =>
    match Xml.find (Xml.ns "doi_batch_id") t, Xml.find (Xml.ns "body") t with
    | Some _, Some _ => None
    | _, _ => Some "Element 'doi_batch': Missing child element(s)."
    end).

Definition catalog (pid collection : string) : result string :=
  if String.eqb pid "S0001" then Ok (render good_tree)
  else if String.eqb pid "S0002" then Raise (Failure "ServerError: timeout")
  else if String.eqb pid "S0003" then Ok "<doi_batch"
  else if String.eqb pid "S0004" then Ok (render bodiless_tree)
  else if String.eqb pid "S0005" then Ok (render unregistered_tree)
  else Raise (Failure "ServerError: not found").

Definition valid_doc : Document :=
  mkDocument "scl" "S0001" (Some "10.1590/S0001").

Definition unreachable_doc : Document :=
  mkDocument "scl" "S0002" (Some "10.1590/S0002").

Definition malformed_doc : Document :=
  mkDocument "scl" "S0003" (Some "10.1590/S0003").

Definition invalid_doc : Document :=
  mkDocument "scl" "S0004" (Some "10.1590/S0004").

Definition unregistered_doc : Document :=
  mkDocument "scl" "S0005" (Some "10.1590/S0005").

Definition foreign_doc : Document :=
  mkDocument "scl" "S0001" (Some "10.9999/S0001").

Definition listing (collection : string) (issn : option string)
  (from_date until_date : string) : list Document :=
  if String.eqb collection "scl" then [unregistered_doc; valid_doc] else [].

Definition clock (n : nat) : Z := 1000 + 10 * Z.of_nat n.

Definition E : Collaborators :=
  mkCollaborators clock (Ok schema) parse render catalog listing Str.lower.



(** The same deployment with a schema file that does not parse. *)
Definition E_broken_xsd : Collaborators :=
  mkCollaborators clock (Raise (Failure "XMLSchemaParseError")) parse render
    catalog listing Str.lower.

Definition depositor : Depositor :=
  mkDepositor "10.1590" (Some "user") (Some "secret") (Some "SciELO")
    (Some "crossref@scielo.org") false (Some schema).

(** A depositor whose prefix has letters, in both cases. *)
Definition mixed_depositor : Depositor :=
  mkDepositor "10.SciELO" (Some "user") (Some "secret") (Some "SciELO")
    (Some "crossref@scielo.org") false (Some schema).

(** The first document of the catalog under a DOI whose prefix is that of
    [mixed_depositor] in another case, and under one with another letter. *)
Definition recased_doc : Document :=
  mkDocument "scl" "S0001" (Some "10.scielo/S0001").

Definition misspelt_doc : Document :=
  mkDocument "scl" "S0001" (Some "10.SciELA/S0001").

Definition exporter : ExportDOI :=
  mkExportDOI depositor "scl" "2026-10-05" "2026-11-04" [None].

End Sample.

(** A store that already holds a row and an event for the first document of
    the catalog, left by an earlier run. *)
Module SampleStore.

Definition stale_row : Deposit :=
  mkDeposit "scl_S0001" "S0001" "scl" "scl_S0001.xml" (Some "10.1590/S0001")
    "10.1590" "error" (Some "notapplicable") (Some false) (Some "<stale/>")
    (Some "00000000") 10 20 20 (Some 20).

Definition stale_event : LogEvent :=
  mkLogEvent "XML is invalid, fail to parse xml for document (scl_S0001)"
    (Some "stale") "submission" "error" "scl_S0001" 20.

Definition stale_store : Store := mkStore [stale_row] [stale_event].

Definition stale_world : World := mkWorld stale_store stale_store 0 [].

(** The sample deployment with a listing on which no fetch fails and no
    call of [deposit] raises: an accepted document, a rejected one, and one
    with a foreign prefix that shares the code of the first. *)
Definition quiet_listing (collection : string) (issn : option string)
  (from_date until_date : string) : list Document :=
  if String.eqb collection "scl"
  then [Sample.valid_doc; Sample.invalid_doc; Sample.foreign_doc]
  else [].

Definition E_quiet : Collaborators :=
  mkCollaborators Sample.clock (Ok Sample.schema) Sample.parse Sample.render
    Sample.catalog quiet_listing Str.lower.

End SampleStore.

(** ** The rest of the two files *)

(** [Depositor.deposit_by_pid]. [lookup] stands for
    [self._articlemeta.document(pid, collection)]: the record of the
    catalog, [None] when it has none, or an exception. [deposit] reads
    [document.collection_acronym] first, which [None] does not have. *)
Definition deposit_by_pid (E : Collaborators)
  (lookup : string -> string -> result (option Document))
  (self : Depositor) (pid collection : string) (w : World)
  : result unit * World :=
  match lookup pid collection with
  | Raise e => (Raise e, w)
  | Ok None =>
      (Raise (AttributeError
                "'NoneType' object has no attribute 'collection_acronym'"), w)
  | Ok (Some document) => deposit E self document w
  end.

Module Main.

Section Issns.

(** [processing.utils.ckeck_given_issns], which is not among the sources:
    taken as it comes. *)
Variable ckeck_given_issns : list string -> list string.

(** [str.strip] *)
Variable strip : string -> string.

(** Lines 209-221 of [main]: the ISSNs of the command line and those of the
    file named by [--issns_file] ([None] when the option is not given), as
    passed on to [ExportDOI]. *)
Definition issns (args_issns : list string)
  (issns_file : option (list string)) : list string :=
  let issns :=
    match args_issns with
    | [] => None
    | _ :: _ => Some (ckeck_given_issns args_issns)
    end in
  let issns_from_file :=
    match issns_file with
    | Some lines => Some (ckeck_given_issns (map strip lines))
    | None => None
    end in
  match issns with
  | Some (i :: r) =>
      ((i :: r) ++ match issns_from_file with
                   | Some (j :: q) => j :: q
                   | _ => []
                   end)%list
  | _ =>
      match issns_from_file with
      | Some (j :: q) => j :: q
      | _ => []
      end
  end.

(** Lines 228-232 of [main]: the exporter built from the arguments, the two
    dates being the ones in force after line 226. *)
Definition exporter (E : Collaborators) (collection : string)
  (args_issns : list string) (issns_file : option (list string))
  (from_date until_date : string) (prefix : string)
  (api_user api_key depositor_name depositor_email : option string)
  (test_mode : bool) : result ExportDOI :=
  ExportDOI_init E collection
    (Some (map Some (issns args_issns issns_file)))
    from_date until_date prefix api_user api_key depositor_name
    depositor_email test_mode.

End Issns.

End Main.

(** The three elements [_setup_depositor] writes to. *)
Definition rewritten_tags : list string :=
  [Xml.ns "registrant"; Xml.ns "depositor_name"; Xml.ns "email_address"].

(** A tree with the text of the elements named in [tags] blanked. *)
Fixpoint mask (tags : list string) (e : Xml.element) : Xml.element :=
  match e with
  | Xml.Element t x cs =>
      Xml.Element t
        (if existsb (String.eqb t) tags then None else x)
        (map (mask tags) cs)
  end.

(** The assignments [_setup_depositor] makes, in order: the element and the
    text it gets. *)
Definition assignments (self : Depositor) : list (string * string) :=
  (match depositor_name self with
   | Some name =>
       if Str.truthy (Some name)
       then [(Xml.ns "registrant", name); (Xml.ns "depositor_name", name)]
       else []
   | None => []
   end
   ++ match depositor_email self with
      | Some email =>
          if Str.truthy (Some email)
          then [(Xml.ns "email_address", email)]
          else []
      | None => []
      end)%list.

(** A run of assignments; the first element that is missing ends it. *)
Fixpoint assign_all (l : list (string * string)) (xml : Xml.element)
  : result Xml.element :=
  match l with
  | [] => Ok xml
  | (tag, v) :: r => xml' <- assign_text tag v xml ;; assign_all r xml'
  end.

(** The characters of a string. *)
Definition chars (s : string) : list ascii := list_ascii_of_string s.

(** ** Tables: rows by code *)

Lemma has_code_true (code : string) (d : Deposit) :
  has_code code d = true <-> dep_code d = code.
Proof. unfold has_code. apply String.eqb_eq. Qed.

Lemma has_code_false (code : string) (d : Deposit) :
  has_code code d = false <-> dep_code d <> code.
Proof. unfold has_code. apply String.eqb_neq. Qed.

Lemma rows_of_app (code : string) (l1 l2 : list Deposit) :
  rows_of code (l1 ++ l2)%list = (rows_of code l1 ++ rows_of code l2)%list.
Proof. unfold rows_of. apply filter_app. Qed.

Lemma rows_of_nil_iff (code : string) (l : list Deposit) :
  rows_of code l = [] <-> ~ In code (map dep_code l).
Proof.
  induction l as [|d l IH]; simpl.
  - tauto.
  - destruct (has_code code d) eqn:Hd.
    + apply has_code_true in Hd. split; [discriminate | intros H; exfalso; auto].
    + apply has_code_false in Hd. rewrite IH. tauto.
Qed.

Lemma rows_of_unique (code : string) (l : list Deposit) :
  NoDup (map dep_code l) -> In code (map dep_code l) ->
  List.length (rows_of code l) = 1%nat.
Proof.
  induction l as [|d l IH]; simpl; intros Hnd Hin; [contradiction|].
  inversion Hnd as [|? ? Hnotin Hnd']; subst.
  destruct (has_code code d) eqn:Hd.
  - apply has_code_true in Hd. subst code.
    apply rows_of_nil_iff in Hnotin. simpl. now rewrite Hnotin.
  - apply has_code_false in Hd. destruct Hin as [Heq|Hin]; [contradiction|].
    now apply IH.
Qed.

Lemma rows_of_update_rows (code : string) (f : Deposit -> Deposit)
  (l : list Deposit) :
  (forall d, dep_code (f d) = dep_code d) ->
  rows_of code (update_rows code f l) = map f (rows_of code l).
Proof.
  intros Hf. induction l as [|d l IH]; simpl; [reflexivity|].
  destruct (has_code code d) eqn:Hd.
  - assert (Hfd : has_code code (f d) = true)
      by (apply has_code_true; rewrite Hf; now apply has_code_true).
    rewrite Hfd. simpl. now rewrite <- IH.
  - rewrite Hd. exact IH.
Qed.

Lemma codes_update_rows (code : string) (f : Deposit -> Deposit)
  (l : list Deposit) :
  (forall d, dep_code (f d) = dep_code d) ->
  map dep_code (update_rows code f l) = map dep_code l.
Proof.
  intros Hf. induction l as [|d l IH]; simpl; [reflexivity|].
  rewrite IH. destruct (has_code code d); [now rewrite Hf | reflexivity].
Qed.

Lemma find_has_code_none (code : string) (l : list Deposit) :
  List.find (has_code code) l = None -> ~ In code (map dep_code l).
Proof.
  intros H. apply rows_of_nil_iff. induction l as [|d l IH]; simpl in *.
  - reflexivity.
  - destruct (has_code code d); [discriminate | auto].
Qed.

Lemma find_has_code_some (code : string) (l : list Deposit) (d : Deposit) :
  List.find (has_code code) l = Some d -> dep_code d = code.
Proof.
  intros H. apply find_some in H. now apply has_code_true.
Qed.

Lemma remove_first_in (code c : string) (l : list Deposit) :
  In c (map dep_code (remove_first code l)) -> In c (map dep_code l).
Proof.
  induction l as [|d l IH]; simpl; [tauto|].
  destruct (has_code code d); simpl; tauto.
Qed.

Lemma remove_first_keeps (code c : string) (l : list Deposit) :
  c <> code -> In c (map dep_code l) ->
  In c (map dep_code (remove_first code l)).
Proof.
  intros Hne. induction l as [|d l IH]; simpl; [tauto|].
  destruct (has_code code d) eqn:Hd; simpl.
  - apply has_code_true in Hd. intros [Heq|Hin]; [congruence | exact Hin].
  - intros [Heq|Hin]; [now left | right; auto].
Qed.

Lemma remove_first_NoDup (code : string) (l : list Deposit) :
  NoDup (map dep_code l) -> NoDup (map dep_code (remove_first code l)).
Proof.
  induction l as [|d l IH]; simpl; intros Hnd; [constructor|].
  inversion Hnd as [|? ? Hnotin Hnd']; subst.
  destruct (has_code code d); simpl; [exact Hnd'|].
  constructor; [|auto].
  intros Hin. apply Hnotin. eapply remove_first_in; eauto.
Qed.

Lemma remove_first_gone (code : string) (l : list Deposit) :
  NoDup (map dep_code l) -> ~ In code (map dep_code (remove_first code l)).
Proof.
  induction l as [|d l IH]; simpl; intros Hnd; [tauto|].
  inversion Hnd as [|? ? Hnotin Hnd']; subst.
  destruct (has_code code d) eqn:Hd; simpl.
  - apply has_code_true in Hd. now subst code.
  - apply has_code_false in Hd. intros [Heq|Hin]; [contradiction|].
    now apply IH.
Qed.

Lemma NoDup_snoc (c : string) (l : list string) :
  NoDup l -> ~ In c l -> NoDup (l ++ [c])%list.
Proof.
  intros Hnd Hnotin. induction Hnd as [|x l Hx Hnd IH]; simpl.
  - constructor; [tauto | constructor].
  - constructor.
    + rewrite in_app_iff. simpl. intros [H|[H|[]]]; [contradiction|].
      subst. apply Hnotin. now left.
    + apply IH. intros H. apply Hnotin. now right.
Qed.

(** ** The rewriter *)

(** The assignment [find(tag).text = v] fails exactly when [find(tag)] finds
    nothing. *)
Lemma set_text_in_none (tag v : string) :
  forall e, Xml.set_text_in tag v e = None <-> Xml.first_in tag e = None.
Proof.
  fix IH 1. intros [t x cs]. simpl.
  destruct (String.eqb t tag); [split; discriminate|].
  induction cs as [|c r IHr]; simpl; [tauto|].
  specialize (IH c).
  destruct (Xml.set_text_in tag v c), (Xml.first_in tag c);
    try (split; discriminate).
  - exfalso. destruct IH as [_ H]. specialize (H eq_refl). discriminate.
  - exfalso. destruct IH as [H _]. specialize (H eq_refl). discriminate.
  - destruct ((fix among (l : list Xml.element) : option (list Xml.element) :=
                 match l with
                 | [] => None
                 | c :: r =>
                     match Xml.set_text_in tag v c with
                     | Some c' => Some (c' :: r)
                     | None => match among r with
                               | Some r' => Some (c :: r')
                               | None => None
                               end
                     end
                 end) r); [|exact IHr].
    split; [discriminate|]. intros H. apply IHr in H. discriminate.
Qed.

Lemma set_text_none (tag v : string) (root : Xml.element) :
  Xml.set_text tag v root = None <-> Xml.find tag root = None.
Proof.
  destruct root as [t x cs]. unfold Xml.set_text, Xml.find. simpl.
  induction cs as [|c r IHr]; simpl; [tauto|].
  pose proof (set_text_in_none tag v c) as Hc.
  destruct (Xml.set_text_in tag v c), (Xml.first_in tag c);
    try (split; discriminate).
  - exfalso. destruct Hc as [_ H]. specialize (H eq_refl). discriminate.
  - exfalso. destruct Hc as [H _]. specialize (H eq_refl). discriminate.
  - destruct (Xml.set_text_among tag v r); [|exact IHr].
    split; [discriminate|]. intros H. apply IHr in H. discriminate.
Qed.

(** An element the rewriter is told to fill and cannot find makes
    [_setup_depositor] raise. *)
Lemma setup_depositor_raises (self : Depositor) (name : string)
  (xml : Xml.element) :
  depositor_name self = Some name -> name <> "" ->
  Xml.find (Xml.ns "registrant") xml = None ->
  _setup_depositor self xml
  = Raise (AttributeError "'NoneType' object has no attribute 'text'").
Proof.
  intros Hname Hne Hfind. unfold _setup_depositor. rewrite Hname.
  unfold Str.truthy. apply String.eqb_neq in Hne. rewrite Hne. cbn [negb].
  unfold assign_text. apply set_text_none with (v := name) in Hfind.
  now rewrite Hfind.
Qed.

(** The rewriter on the sample file: name and address are filled in. *)
Example setup_depositor_fills :
  _setup_depositor Sample.depositor Sample.good_tree
  = Ok (Sample.batch "a1b2c3d4" (Some "SciELO") (Some "crossref@scielo.org")
          true).
Proof. reflexivity. Qed.

Lemma element_forall_ind (P : Xml.element -> Prop) :
  (forall t x cs, Forall P cs -> P (Xml.Element t x cs)) ->
  forall e, P e.
Proof.
  intros H. fix IH 1. intros [t x cs]. apply H.
  induction cs as [|c r IHr]; constructor; [apply IH | exact IHr].
Qed.

Lemma first_in_unfold (tag t : string) (x : option string)
  (cs : list Xml.element) :
  Xml.first_in tag (Xml.Element t x cs)
  = if String.eqb t tag then Some (Xml.Element t x cs)
    else Xml.first_among tag cs.
Proof.
  simpl. destruct (String.eqb t tag); [reflexivity|].
  induction cs as [|c r IHr]; simpl; [reflexivity|]. now rewrite IHr.
Qed.

Lemma set_text_in_unfold (tag v t : string) (x : option string)
  (cs : list Xml.element) :
  Xml.set_text_in tag v (Xml.Element t x cs)
  = if String.eqb t tag then Some (Xml.Element t (Some v) cs)
    else match Xml.set_text_among tag v cs with
         | Some cs' => Some (Xml.Element t x cs')
         | None => None
         end.
Proof.
  simpl. destruct (String.eqb t tag); [reflexivity|].
  assert (H : forall l,
             (fix among (l : list Xml.element) : option (list Xml.element) :=
                match l with
                | [] => None
                | c :: r =>
                    match Xml.set_text_in tag v c with
                    | Some c' => Some (c' :: r)
                    | None => match among r with
                              | Some r' => Some (c :: r')
                              | None => None
                              end
                    end
                end) l = Xml.set_text_among tag v l).
  { induction l as [|c r IHr]; simpl; [reflexivity|]. now rewrite IHr. }
  now rewrite H.
Qed.

(** The element whose text is set is the one [find] then returns, with the
    text it was given. *)
Lemma set_text_in_found (tag v : string) :
  forall e e',
    Xml.set_text_in tag v e = Some e' ->
    exists f, Xml.first_in tag e' = Some f /\ Xml.text_of f = Some v.
Proof.
  induction e as [t x cs IH] using element_forall_ind. intros e'.
  rewrite set_text_in_unfold. destruct (String.eqb t tag) eqn:Ht.
  - intros [= <-]. rewrite first_in_unfold, Ht. eexists. split; reflexivity.
  - destruct (Xml.set_text_among tag v cs) as [cs'|] eqn:Hcs; [|discriminate].
    intros [= <-]. rewrite first_in_unfold, Ht.
    revert cs' Hcs. induction IH as [|c r Hc Hr IHr]; simpl; [discriminate|].
    intros cs'. destruct (Xml.set_text_in tag v c) as [c'|] eqn:Hsc.
    + intros [= <-]. simpl. destruct (Hc c' eq_refl) as (f & Hf & Hv).
      rewrite Hf. eauto.
    + destruct (Xml.set_text_among tag v r) as [r'|]; [|discriminate].
      intros [= <-]. simpl. apply set_text_in_none in Hsc. rewrite Hsc.
      now apply IHr.
Qed.

Lemma set_text_found (tag v : string) (xml xml' : Xml.element) :
  Xml.set_text tag v xml = Some xml' ->
  exists f, Xml.find tag xml' = Some f /\ Xml.text_of f = Some v.
Proof.
  destruct xml as [t x cs]. unfold Xml.set_text, Xml.find.
  destruct (Xml.set_text_among tag v cs) as [cs'|] eqn:Hcs; [|discriminate].
  intros [= <-]. simpl. revert cs' Hcs.
  induction cs as [|c r IHr]; simpl; [discriminate|]. intros cs'.
  destruct (Xml.set_text_in tag v c) as [c'|] eqn:Hsc.
  - intros [= <-]. simpl.
    destruct (set_text_in_found tag v c Hsc) as (f & Hf & Hv).
    rewrite Hf. eauto.
  - destruct (Xml.set_text_among tag v r) as [r'|]; [|discriminate].
    intros [= <-]. simpl. apply set_text_in_none in Hsc. rewrite Hsc.
    now apply IHr.
Qed.

(** Setting the text of one tag leaves what [find] reports of another tag:
    found or not, and with which text. *)
Lemma set_text_in_other (tag v tag' : string) :
  tag' <> tag ->
  forall e e',
    Xml.set_text_in tag v e = Some e' ->
    option_map Xml.text_of (Xml.first_in tag' e')
    = option_map Xml.text_of (Xml.first_in tag' e).
Proof.
  intros Hne. induction e as [t x cs IH] using element_forall_ind. intros e'.
  rewrite set_text_in_unfold. destruct (String.eqb t tag) eqn:Ht.
  - intros [= <-]. apply String.eqb_eq in Ht. subst t.
    rewrite !first_in_unfold.
    assert (Hno : String.eqb tag tag' = false)
      by (apply String.eqb_neq; congruence).
    now rewrite Hno.
  - destruct (Xml.set_text_among tag v cs) as [cs'|] eqn:Hcs; [|discriminate].
    intros [= <-]. rewrite !first_in_unfold.
    destruct (String.eqb t tag'); [reflexivity|].
    revert cs' Hcs. induction IH as [|c r Hc Hr IHr]; simpl; [discriminate|].
    intros cs'. destruct (Xml.set_text_in tag v c) as [c'|] eqn:Hsc.
    + intros [= <-]. simpl. specialize (Hc c' eq_refl).
      destruct (Xml.first_in tag' c'), (Xml.first_in tag' c);
        simpl in Hc; try discriminate; auto.
    + destruct (Xml.set_text_among tag v r) as [r'|]; [|discriminate].
      intros [= <-]. simpl. destruct (Xml.first_in tag' c); [reflexivity|].
      now apply IHr.
Qed.

Lemma set_text_other (tag v tag' : string) (xml xml' : Xml.element) :
  tag' <> tag ->
  Xml.set_text tag v xml = Some xml' ->
  option_map Xml.text_of (Xml.find tag' xml')
  = option_map Xml.text_of (Xml.find tag' xml).
Proof.
  intros Hne. destruct xml as [t x cs]. unfold Xml.set_text, Xml.find.
  destruct (Xml.set_text_among tag v cs) as [cs'|] eqn:Hcs; [|discriminate].
  intros [= <-]. simpl. revert cs' Hcs.
  induction cs as [|c r IHr]; simpl; [discriminate|]. intros cs'.
  destruct (Xml.set_text_in tag v c) as [c'|] eqn:Hsc.
  - intros [= <-]. simpl.
    pose proof (set_text_in_other v Hne c Hsc) as Hc.
    destruct (Xml.first_in tag' c'), (Xml.first_in tag' c);
      simpl in Hc; try discriminate; auto.
  - destruct (Xml.set_text_among tag v r) as [r'|]; [|discriminate].
    intros [= <-]. simpl. destruct (Xml.first_in tag' c); [reflexivity|].
    now apply IHr.
Qed.

(** Setting a text that is already there changes nothing. *)
Lemma set_text_in_same (tag v : string) :
  forall e f,
    Xml.first_in tag e = Some f -> Xml.text_of f = Some v ->
    Xml.set_text_in tag v e = Some e.
Proof.
  induction e as [t x cs IH] using element_forall_ind. intros f.
  rewrite first_in_unfold, set_text_in_unfold.
  destruct (String.eqb t tag) eqn:Ht.
  - intros [= <-]. simpl. now intros ->.
  - intros Hf Hv.
    assert (Hcs : Xml.set_text_among tag v cs = Some cs).
    { revert Hf. induction IH as [|c r Hc Hr IHr]; simpl; [discriminate|].
      destruct (Xml.first_in tag c) as [g|] eqn:Hg.
      - intros [= ->]. now rewrite (Hc f eq_refl Hv).
      - intros Hf. apply set_text_in_none with (v := v) in Hg. rewrite Hg.
        now rewrite (IHr Hf). }
    now rewrite Hcs.
Qed.

Lemma set_text_same (tag v : string) (xml f : Xml.element) :
  Xml.find tag xml = Some f -> Xml.text_of f = Some v ->
  Xml.set_text tag v xml = Some xml.
Proof.
  destruct xml as [t x cs]. unfold Xml.set_text, Xml.find. simpl.
  intros Hf Hv.
  assert (Hcs : Xml.set_text_among tag v cs = Some cs).
  { revert Hf. induction cs as [|c r IHr]; simpl; [discriminate|].
    destruct (Xml.first_in tag c) as [g|] eqn:Hg.
    - intros [= ->]. now rewrite (set_text_in_same tag c Hg Hv).
    - intros Hf. apply set_text_in_none with (v := v) in Hg. rewrite Hg.
      now rewrite (IHr Hf). }
  now rewrite Hcs.
Qed.

(** Setting the text of an element named in [tags] is invisible under
    [mask tags]. *)
Lemma set_text_in_mask (tags : list string) (tag v : string) :
  In tag tags ->
  forall e e', Xml.set_text_in tag v e = Some e' -> mask tags e' = mask tags e.
Proof.
  intros Hin. induction e as [t x cs IH] using element_forall_ind. intros e'.
  rewrite set_text_in_unfold. destruct (String.eqb t tag) eqn:Ht.
  - intros [= <-]. apply String.eqb_eq in Ht. subst t. simpl.
    assert (Hex : existsb (String.eqb tag) tags = true).
    { apply existsb_exists. exists tag. split; [exact Hin|].
      apply String.eqb_refl. }
    now rewrite Hex.
  - destruct (Xml.set_text_among tag v cs) as [cs'|] eqn:Hcs; [|discriminate].
    intros [= <-]. simpl. f_equal.
    revert cs' Hcs. induction IH as [|c r Hc Hr IHr]; simpl; [discriminate|].
    intros cs'. destruct (Xml.set_text_in tag v c) as [c'|] eqn:Hsc.
    + intros [= <-]. simpl. now rewrite (Hc c' eq_refl).
    + destruct (Xml.set_text_among tag v r) as [r'|]; [|discriminate].
      intros [= <-]. simpl. f_equal. now apply IHr.
Qed.

Lemma set_text_mask (tags : list string) (tag v : string)
  (xml xml' : Xml.element) :
  In tag tags ->
  Xml.set_text tag v xml = Some xml' -> mask tags xml' = mask tags xml.
Proof.
  intros Hin. destruct xml as [t x cs]. unfold Xml.set_text.
  destruct (Xml.set_text_among tag v cs) as [cs'|] eqn:Hcs; [|discriminate].
  intros [= <-]. simpl. f_equal. revert cs' Hcs.
  induction cs as [|c r IHr]; simpl; [discriminate|]. intros cs'.
  destruct (Xml.set_text_in tag v c) as [c'|] eqn:Hsc.
  - intros [= <-]. simpl. now rewrite (@set_text_in_mask tags tag v Hin c c' Hsc).
  - destruct (Xml.set_text_among tag v r) as [r'|]; [|discriminate].
    intros [= <-]. simpl. f_equal. now apply IHr.
Qed.

Lemma setup_depositor_steps (self : Depositor) (xml : Xml.element) :
  _setup_depositor self xml = assign_all (assignments self) xml.
Proof.
  unfold _setup_depositor, assignments.
  destruct (depositor_name self) as [name|];
    [destruct (Str.truthy (Some name))|];
    (destruct (depositor_email self) as [email|];
     [destruct (Str.truthy (Some email))|]);
    cbn [app assign_all bind];
    repeat match goal with
           | |- context [assign_text ?t ?v ?x] =>
               destruct (assign_text t v x); cbn [bind]
           end;
    reflexivity.
Qed.

Lemma assignments_tags (self : Depositor) :
  NoDup (map fst (assignments self))
  /\ (forall tag v, In (tag, v) (assignments self) -> In tag rewritten_tags).
Proof.
  assert (H1 : Xml.ns "registrant" <> Xml.ns "depositor_name")
    by (apply String.eqb_neq; reflexivity).
  assert (H2 : Xml.ns "registrant" <> Xml.ns "email_address")
    by (apply String.eqb_neq; reflexivity).
  assert (H3 : Xml.ns "depositor_name" <> Xml.ns "email_address")
    by (apply String.eqb_neq; reflexivity).
  unfold assignments, rewritten_tags.
  destruct (depositor_name self) as [name|];
    [destruct (Str.truthy (Some name))|];
    (destruct (depositor_email self) as [email|];
     [destruct (Str.truthy (Some email))|]);
    cbn [app map fst]; (split; [repeat constructor; cbn [In]; intuition|]);
    intros tag v Hin; cbn [In] in *;
    repeat (destruct Hin as [[= <- <-]|Hin]; [tauto|]); contradiction.
Qed.

(** Which assignments are made, in the words of the source. *)
Lemma in_assignments (self : Depositor) (tag v : string) :
  In (tag, v) (assignments self)
  <-> (depositor_name self = Some v /\ v <> ""
       /\ (tag = Xml.ns "registrant" \/ tag = Xml.ns "depositor_name"))
      \/ (depositor_email self = Some v /\ v <> ""
          /\ tag = Xml.ns "email_address").
Proof.
  unfold assignments, Str.truthy.
  destruct (depositor_name self) as [name|];
    [destruct (String.eqb_spec name "")|];
    (destruct (depositor_email self) as [email|];
     [destruct (String.eqb_spec email "")|]);
    cbn [negb app In]; split;
    try (intros Hin;
         repeat (destruct Hin as [[= <- <-]|Hin]; [tauto|]); contradiction);
    intros [([= <-] & Hv & [->| ->])|([= <-] & Hv & ->)];
    try contradiction; tauto.
Qed.

Lemma assign_text_ok (tag v : string) (xml xml' : Xml.element) :
  assign_text tag v xml = Ok xml' <-> Xml.set_text tag v xml = Some xml'.
Proof.
  unfold assign_text. destruct (Xml.set_text tag v xml);
    split; intros H; inversion H; reflexivity.
Qed.

Lemma assign_all_mask (tags : list string) :
  forall l xml xml',
    (forall tag v, In (tag, v) l -> In tag tags) ->
    assign_all l xml = Ok xml' -> mask tags xml' = mask tags xml.
Proof.
  induction l as [|[tag v] r IH]; simpl; intros xml xml' Hall.
  - now intros [= <-].
  - destruct (assign_text tag v xml) as [mid|] eqn:Hmid; [|discriminate].
    cbn [bind]. intros Hr. apply assign_text_ok in Hmid.
    transitivity (mask tags mid).
    + apply IH; [|exact Hr]. intros t u Hin. apply (Hall t u). now right.
    + apply set_text_mask with (tag := tag) (v := v); [|exact Hmid].
      apply (Hall tag v). now left.
Qed.

Lemma assign_all_other (tag' : string) :
  forall l xml xml',
    ~ In tag' (map fst l) ->
    assign_all l xml = Ok xml' ->
    option_map Xml.text_of (Xml.find tag' xml')
    = option_map Xml.text_of (Xml.find tag' xml).
Proof.
  induction l as [|[tag v] r IH]; simpl; intros xml xml' Hnot.
  - now intros [= <-].
  - destruct (assign_text tag v xml) as [mid|] eqn:Hmid; [|discriminate].
    cbn [bind]. intros Hr. apply assign_text_ok in Hmid.
    transitivity (option_map Xml.text_of (Xml.find tag' mid)).
    + apply IH; [|exact Hr]. intros Hin. apply Hnot. now right.
    + apply set_text_other with (tag := tag) (v := v); [|exact Hmid].
      intros ->. apply Hnot. now left.
Qed.

Lemma assign_all_fills (l : list (string * string)) :
  forall xml xml',
    NoDup (map fst l) ->
    assign_all l xml = Ok xml' ->
    forall tag v, In (tag, v) l ->
                  option_map Xml.text_of (Xml.find tag xml') = Some (Some v).
Proof.
  induction l as [|[tag0 v0] r IH]; simpl; intros xml xml' Hnd Hrun tag v Hin;
    [contradiction|].
  inversion Hnd as [|? ? Hnot Hnd']; subst.
  destruct (assign_text tag0 v0 xml) as [mid|] eqn:Hmid; [|discriminate].
  cbn [bind] in Hrun. apply assign_text_ok in Hmid.
  destruct Hin as [[= -> ->]|Hin].
  - rewrite (@assign_all_other tag r mid xml' Hnot Hrun).
    destruct (@set_text_found tag v xml mid Hmid) as (f & Hf & Hv).
    now rewrite Hf, <- Hv.
  - eapply IH; eauto.
Qed.

Lemma assign_all_settled (l : list (string * string)) :
  forall xml,
    (forall tag v, In (tag, v) l ->
                   option_map Xml.text_of (Xml.find tag xml) = Some (Some v)) ->
    assign_all l xml = Ok xml.
Proof.
  induction l as [|[tag v] r IH]; simpl; intros xml Hall; [reflexivity|].
  assert (Hset : Xml.set_text tag v xml = Some xml).
  { specialize (Hall tag v (or_introl eq_refl)).
    destruct (Xml.find tag xml) as [f|] eqn:Hf; [|discriminate].
    simpl in Hall. injection Hall as Hv.
    now apply set_text_same with (f := f). }
  unfold assign_text. rewrite Hset. cbn [bind]. apply IH. auto.
Qed.

Lemma assign_all_raises (l : list (string * string)) :
  forall xml,
    (exists e, assign_all l xml = Raise e)
    <-> (exists tag v, In (tag, v) l /\ Xml.find tag xml = None).
Proof.
  induction l as [|[tag0 v0] r IH]; simpl; intros xml.
  - split; [intros [e H]; discriminate | intros (? & ? & [] & _)].
  - unfold assign_text at 1.
    destruct (Xml.set_text tag0 v0 xml) as [mid|] eqn:Hmid; cbn [bind].
    + rewrite IH. split.
      * intros (tag & v & Hin & Hnone). exists tag, v. split; [auto|].
        destruct (String.eqb_spec tag tag0) as [->|Hne].
        -- destruct (@set_text_found tag0 v0 xml mid Hmid) as (f & Hf & _).
           congruence.
        -- pose proof (@set_text_other tag0 v0 tag xml mid Hne Hmid) as Hsame.
           rewrite Hnone in Hsame.
           destruct (Xml.find tag xml); [discriminate | reflexivity].
      * intros (tag & v & [[= <- <-]|Hin] & Hnone).
        -- apply set_text_none with (v := v0) in Hnone. congruence.
        -- exists tag, v. split; [exact Hin|].
           destruct (String.eqb_spec tag tag0) as [->|Hne].
           ++ apply set_text_none with (v := v0) in Hnone. congruence.
           ++ pose proof (@set_text_other tag0 v0 tag xml mid Hne Hmid) as Hsame.
              rewrite Hnone in Hsame.
              destruct (Xml.find tag mid); [discriminate | reflexivity].
    + split; [|eauto]. intros _. exists tag0, v0. split; [auto|].
      now apply set_text_none in Hmid.
Qed.

Lemma assign_all_exception (l : list (string * string)) :
  forall xml e,
    assign_all l xml = Raise e ->
    e = AttributeError "'NoneType' object has no attribute 'text'".
Proof.
  induction l as [|[tag v] r IH]; simpl; intros xml e; [discriminate|].
  unfold assign_text at 1. destruct (Xml.set_text tag v xml) as [mid|];
    cbn [bind]; [apply IH | now intros [= <-]].
Qed.

(** ** The replace-and-insert step *)

Section Upsert.

Variable E : Collaborators.

Lemma delete_existing_spec (code : string) (w : World) :
  NoDup (codes (session w)) ->
  ~ In code (codes (session (delete_existing code w)))
  /\ NoDup (codes (session (delete_existing code w)))
  /\ logevents (session (delete_existing code w)) = logevents (session w)
  /\ clock_reads (delete_existing code w) = clock_reads w
  /\ fetches (delete_existing code w) = fetches w
  /\ (forall c, c <> code -> In c (codes (session w)) ->
                In c (codes (session (delete_existing code w)))).
Proof.
  intros Hnd. unfold delete_existing, DBSession.first_by_code, codes in *.
  destruct (List.find (has_code code) (deposits (session w))) as [old|] eqn:Hf.
  - apply find_has_code_some in Hf. simpl. rewrite Hf.
    repeat split; auto using remove_first_gone, remove_first_NoDup,
      remove_first_keeps.
  - apply find_has_code_none in Hf. repeat split; auto.
Qed.

(** A row found under [code] is gone from the committed store once
    [delete_existing] returns. *)
Lemma delete_existing_committed (code : string) (w : World) (old : Deposit) :
  NoDup (codes (session w)) ->
  DBSession.first_by_code code w = Some old ->
  rows_of code (deposits (committed (delete_existing code w))) = [].
Proof.
  intros Hnd Hf. unfold delete_existing. rewrite Hf.
  unfold DBSession.first_by_code in Hf. apply find_has_code_some in Hf.
  simpl. rewrite Hf. apply rows_of_nil_iff. now apply remove_first_gone.
Qed.

Lemma after_upsert_spec (document : Document) (w : World) :
  NoDup (codes (session w)) ->
  let wb := after_upsert E document w in
  committed wb = session wb
  /\ rows_of (code_of document) (deposits (session wb))
     = [fresh_row document (now_at E (clock_reads w))]
  /\ logevents (session wb) = logevents (session w)
  /\ NoDup (codes (session wb))
  /\ clock_reads wb = S (clock_reads w)
  /\ fetches wb = fetches w
  /\ In (code_of document) (codes (session wb))
  /\ (forall c, In c (codes (session w)) -> In c (codes (session wb))).
Proof.
  intros Hnd wb. subst wb. unfold after_upsert, insert_fresh.
  set (w1 := snd (datetime_now E w)).
  assert (Hnd1 : NoDup (codes (session w1))) by exact Hnd.
  destruct (delete_existing_spec (code_of document) w1 Hnd1)
    as (Hgone & Hnd2 & Hlog & Hclock & Hfetch & Hkeep).
  set (w2 := delete_existing (code_of document) w1) in *.
  simpl. unfold codes in *. simpl.
  rewrite rows_of_app, map_app. simpl.
  apply rows_of_nil_iff in Hgone as Hnil. rewrite Hnil.
  unfold has_code. simpl. rewrite String.eqb_refl.
  repeat split; auto.
  - now apply NoDup_snoc.
  - apply in_or_app. right. now left.
  - intros c Hc. apply in_or_app.
    destruct (String.eqb_spec c (code_of document)) as [->|Hne].
    + right. now left.
    + left. apply Hkeep; auto.
Qed.

End Upsert.

(** ** The pipeline, path by path *)

Ltac enter_deposit E self document w :=
  unfold deposit, deposit_rest; cbv zeta;
  change (datetime_now E w)
    with (now_at E (clock_reads w), snd (datetime_now E w));
  cbv iota beta;
  change (insert_fresh _ (delete_existing _ _))
    with (after_upsert E document w);
  change (String.eqb (str_lower E (doi_prefix_of document))
            (str_lower E (prefix self)))
    with (prefix_matches E self document).

Ltac read_clock E :=
  match goal with
  | |- context [datetime_now E ?x] =>
      change (datetime_now E x)
        with (now_at E (clock_reads x), snd (datetime_now E x));
      cbv iota beta
  end.

Ltac world_simpl :=
  cbn [committed session deposits logevents clock_reads fetches fst snd
       DBSession.commit DBSession.add_event DBSession.assign
       DBSession.with_session datetime_now fetch_xml].

Ltac rows_simpl :=
  repeat (rewrite rows_of_update_rows by (intros; reflexivity)).

Ltac pass_gate E self document w Hp :=
  enter_deposit E self document w; rewrite Hp; cbn [negb].

Ltac take_fetch Hfetch :=
  unfold fetch_xml; rewrite Hfetch; cbv iota beta.

Lemma events_of_app (code : string) (l1 l2 : list LogEvent) :
  events_of code (l1 ++ l2)%list
  = (events_of code l1 ++ events_of code l2)%list.
Proof. unfold events_of. apply filter_app. Qed.

Lemma for_code_refl (code : string) (title : string) (body : option string)
  (type status : string) (date : Z) :
  for_code code (mkLogEvent title body type status code date) = true.
Proof. unfold for_code. simpl. apply String.eqb_refl. Qed.

(** What [xml_is_valid] returns as a tree is the parsed document after the
    rewriter ran, judged by the loaded schema. *)
Lemma xml_is_valid_tree (E : Collaborators) (self : Depositor) (xml : string)
  (v : bool) (tree : Xml.element) (msg : string) :
  xml_is_valid E self xml = Ok (v, PyTree tree, msg) ->
  exists parsed sch,
    etree_parse E xml = Ok parsed
    /\ _setup_depositor self parsed = Ok tree
    /\ crossref_schema self = Some sch
    /\ (if v then assertValid sch tree = None /\ msg = ""
        else assertValid sch tree = Some msg).
Proof.
  unfold xml_is_valid. intros H.
  destruct (etree_parse E xml) as [parsed|e]; [|discriminate].
  destruct (_setup_depositor self parsed) as [tree'|e] eqn:Hs; [|discriminate].
  cbn [bind] in H.
  destruct (crossref_schema self) as [sch|]; [|discriminate].
  exists parsed, sch.
  destruct (assertValid sch tree') as [m|] eqn:Hv; inversion H; subst;
    repeat split; auto.
Qed.

(** C2. The gate of line 110 compares the DOI prefix of the document and
    the configured prefix after [lower()] on both. When the two lowered
    strings differ, [deposit] returns with the row at [notapplicable] for
    both statuses and the three timestamps renewed, one committed event of
    type [general] and status [notapplicable] appended for the code (the
    only event of the code when the log held none), and the catalog never
    asked. When they are equal, the XML request is sent. *)
Theorem deposit_prefix_gate (E : Collaborators) (self : Depositor)
  (document : Document) (w : World) :
  NoDup (codes (session w)) ->
  let code := code_of document in
  let t0 := now_at E (clock_reads w) in
  let t1 := now_at E (S (clock_reads w)) in
  let event :=
    mkLogEvent (mismatch_title self document) None "general" "notapplicable"
      code t1 in
  (str_lower E (doi_prefix_of document) <> str_lower E (prefix self) ->
   exists w',
     deposit E self document w = (Ok tt, w')
     /\ rows_of code (deposits (committed w'))
        = [ mkDeposit code (publisher_id document)
              (collection_acronym document) (code ++ ".xml") (doi document)
              (doi_prefix_of document) "notapplicable" (Some "notapplicable")
              None None None t0 t1 t1 (Some t1) ]
     /\ logevents (committed w') = (logevents (session w) ++ [event])%list
     /\ (events_of code (logevents (session w)) = [] ->
         events_of code (logevents (committed w')) = [event])
     /\ session w' = committed w'
     /\ fetches w' = fetches w)
  /\ (str_lower E (doi_prefix_of document) = str_lower E (prefix self) ->
      fetches (snd (deposit E self document w))
      = (fetches w
           ++ [(publisher_id document, collection_acronym document)])%list).
Proof.
  intros Hnd code t0 t1 event.
  destruct (after_upsert_spec E document w Hnd)
    as (Hc & Hrows & Hlog & Hnd' & Hclk & Hf & _).
  split; intros Hp.
  - apply String.eqb_neq in Hp. fold (prefix_matches E self document) in Hp.
    pass_gate E self document w Hp.
    read_clock E. eexists. split; [reflexivity|].
    world_simpl. rows_simpl. rewrite Hrows, Hlog, Hclk, Hf.
    repeat split.
    rewrite events_of_app. intros ->. simpl.
    subst event. now rewrite for_code_refl.
  - apply String.eqb_eq in Hp. fold (prefix_matches E self document) in Hp.
    pass_gate E self document w Hp. unfold fetch_xml. cbv iota beta.
    destruct (articlemeta_document E _ _) as [xml|exc].
    + destruct (xml_is_valid E self xml) as [[[is_valid parsed] msg]|e];
        [|world_simpl; now rewrite Hf].
      destruct (tostring E parsed) as [serialised|e];
        [|world_simpl; now rewrite Hf].
      destruct is_valid; cbn [negb]; read_clock E.
      * destruct (find_text _ parsed) as [batch|e];
          [read_clock E|]; world_simpl; now rewrite Hf.
      * world_simpl; now rewrite Hf.
    + read_clock E. world_simpl. now rewrite Hf.
Qed.

Lemma deposit_prefix_gate_witness :
  doi_prefix_of Sample.misspelt_doc = "10.SciELA"
  /\ doi_prefix_of Sample.recased_doc = "10.scielo"
  /\ prefix Sample.mixed_depositor = "10.SciELO"
  /\ rows_of "scl_S0001"
       (deposits (committed
          (snd (deposit Sample.E Sample.mixed_depositor Sample.misspelt_doc
                  empty_world))))
     = [ mkDeposit "scl_S0001" "S0001" "scl" "scl_S0001.xml"
           (Some "10.SciELA/S0001") "10.SciELA" "notapplicable"
           (Some "notapplicable") None None None 1000 1010 1010 (Some 1010) ]
  /\ fetches (snd (deposit Sample.E Sample.mixed_depositor
                     Sample.misspelt_doc empty_world)) = []
  /\ fetches (snd (deposit Sample.E Sample.mixed_depositor
                     Sample.recased_doc empty_world)) = [("S0001", "scl")].
Proof.
  assert (Hno : str_lower Sample.E (doi_prefix_of Sample.misspelt_doc)
                <> str_lower Sample.E (prefix Sample.mixed_depositor))
    by (vm_compute; discriminate).
  assert (Hyes : str_lower Sample.E (doi_prefix_of Sample.recased_doc)
                 = str_lower Sample.E (prefix Sample.mixed_depositor))
    by reflexivity.
  destruct (deposit_prefix_gate Sample.E Sample.mixed_depositor
              Sample.misspelt_doc empty_world (NoDup_nil string))
    as [Hfalse _].
  destruct (Hfalse Hno) as (w' & Hrun & Hrow & _ & _ & _ & Hfetch).
  destruct (deposit_prefix_gate Sample.E Sample.mixed_depositor
              Sample.recased_doc empty_world (NoDup_nil string))
    as [_ Htrue].
  rewrite Hrun. do 3 (split; [reflexivity|]).
  split; [exact Hrow|]. split; [exact Hfetch|].
  exact (Htrue Hyes).
Defined.

(** C3. The fetched XML parses, the rewriter succeeds and the schema accepts
    the rewritten tree, which holds a [doi_batch_id] element (the schema
    requires one): [deposit] returns with [is_xml_valid] true, the status
    still [waiting], [doi_batch_id] the text of that element,
    [submission_xml] the serialisation of the rewritten tree, and the events
    [info] and [success] of type [submission] committed, in that order. The
    tree serialised is the parsed document as the rewriter leaves it: the
    configured name is the text of its [registrant] and [depositor_name],
    the configured address that of its [email_address], nothing else of the
    parsed document is changed, and it is the tree the schema accepted. *)
Theorem deposit_valid_xml (E : Collaborators) (self : Depositor)
  (document : Document) (w : World) (xml : string) (tree : Xml.element)
  (msg : string) (batch : Xml.element) :
  NoDup (codes (session w)) ->
  prefix_matches E self document = true ->
  articlemeta_document E (publisher_id document) (collection_acronym document)
  = Ok xml ->
  xml_is_valid E self xml = Ok (true, PyTree tree, msg) ->
  Xml.find (Xml.ns "doi_batch_id") tree = Some batch ->
  let code := code_of document in
  let t0 := now_at E (clock_reads w) in
  let t2 := now_at E (S (S (clock_reads w))) in
  exists w',
    deposit E self document w = (Ok tt, w')
    /\ (exists parsed,
          etree_parse E xml = Ok parsed
          /\ _setup_depositor self parsed = Ok tree
          /\ mask rewritten_tags tree = mask rewritten_tags parsed)
    /\ (forall name,
          depositor_name self = Some name -> name <> "" ->
          option_map Xml.text_of (Xml.find (Xml.ns "registrant") tree)
          = Some (Some name)
          /\ option_map Xml.text_of (Xml.find (Xml.ns "depositor_name") tree)
             = Some (Some name))
    /\ (forall email,
          depositor_email self = Some email -> email <> "" ->
          option_map Xml.text_of (Xml.find (Xml.ns "email_address") tree)
          = Some (Some email))
    /\ (exists sch,
          crossref_schema self = Some sch /\ assertValid sch tree = None)
    /\ rows_of code (deposits (committed w'))
       = [ mkDeposit code (publisher_id document)
             (collection_acronym document) (code ++ ".xml") (doi document)
             (doi_prefix_of document) "waiting" None (Some true)
             (Some (etree_tostring E tree)) (Xml.text_of batch)
             t0 t0 t0 None ]
    /\ logevents (committed w')
       = (logevents (session w)
            ++ [ mkLogEvent (loading_title document) None "submission" "info"
                   code t0;
                 mkLogEvent valid_title None "submission" "success"
                   code t2 ])%list
    /\ session w' = committed w'.
Proof.
  intros Hnd Hp Hfetch Hvalid Hbatch code t0 t2.
  destruct (after_upsert_spec E document w Hnd)
    as (Hc & Hrows & Hlog & Hnd' & Hclk & Hf & _).
  destruct (xml_is_valid_tree E self xml Hvalid)
    as (parsed & sch & Hparse & Hsetup & Hsch & Haccept & _).
  pose proof Hsetup as Hrun. rewrite setup_depositor_steps in Hrun.
  destruct (assignments_tags self) as [Hnames Htags].
  pose proof (assign_all_fills (assignments self) parsed Hnames Hrun) as Hfill.
  pass_gate E self document w Hp. take_fetch Hfetch.
  rewrite Hvalid. cbn [tostring negb find_text]. rewrite Hbatch.
  read_clock E. read_clock E.
  eexists. split; [reflexivity|].
  split.
  { exists parsed. split; [exact Hparse|]. split; [exact Hsetup|].
    exact (@assign_all_mask rewritten_tags (assignments self) parsed tree
             Htags Hrun). }
  split.
  { intros name Hname Hne.
    split; apply Hfill; apply in_assignments; left; auto. }
  split.
  { intros email Hemail Hne. apply Hfill. apply in_assignments. right. auto. }
  split; [now exists sch|].
  world_simpl. rows_simpl. rewrite Hrows, Hlog, Hclk, <- app_assoc.
  repeat split.
Qed.

Lemma deposit_valid_xml_witness :
  exists w',
    deposit Sample.E Sample.depositor Sample.valid_doc empty_world
    = (Ok tt, w')
    /\ map (fun d => (submission_status d, is_xml_valid d, doi_batch_id d))
         (rows_of "scl_S0001" (deposits (committed w')))
       = [("waiting", Some true, Some "a1b2c3d4")]
    /\ map submission_xml (rows_of "scl_S0001" (deposits (committed w')))
       = [ Some (Sample.render
                   (Sample.batch "a1b2c3d4" (Some "SciELO")
                      (Some "crossref@scielo.org") true)) ]
    /\ Sample.catalog "S0001" "scl"
       = Ok (Sample.render (Sample.batch "a1b2c3d4" None None true))
    /\ option_map Xml.text_of
         (Xml.find (Xml.ns "registrant")
            (Sample.batch "a1b2c3d4" (Some "SciELO")
               (Some "crossref@scielo.org") true))
       = Some (Some "SciELO")
    /\ map kind (logevents (committed w'))
       = [("submission", "info"); ("submission", "success")].
Proof.
  destruct (deposit_valid_xml Sample.E Sample.depositor Sample.valid_doc
              empty_world (xml := Sample.render Sample.good_tree)
              (tree := Sample.batch "a1b2c3d4" (Some "SciELO")
                         (Some "crossref@scielo.org") true)
              (msg := "")
              (batch := Sample.leaf "doi_batch_id" (Some "a1b2c3d4"))
              (NoDup_nil string) eq_refl eq_refl eq_refl eq_refl)
    as (w' & Hrun & _ & Hname & _ & _ & Hrow & Hlog & _).
  exists w'. split; [exact Hrun|].
  split.
  { exact (f_equal
             (map (fun d =>
                     (submission_status d, is_xml_valid d, doi_batch_id d)))
             Hrow). }
  split; [exact (f_equal (map submission_xml) Hrow)|].
  split; [reflexivity|].
  split.
  { apply (Hname "SciELO" eq_refl). discriminate. }
  exact (f_equal (map kind) Hlog).
Defined.

(** C4. The fetched XML parses and the rewriter succeeds: whatever the
    schema says of the rewritten tree, the committed row holds its
    serialisation in [submission_xml]; when the schema rejects it,
    [is_xml_valid] is false, the status [error], two timestamps renewed, and
    an event of type [submission] and status [error] is committed whose body
    is the message of the schema engine. *)
Theorem deposit_invalid_xml (E : Collaborators) (self : Depositor)
  (document : Document) (w : World) (xml : string) (v : bool)
  (tree : Xml.element) (msg : string) :
  NoDup (codes (session w)) ->
  prefix_matches E self document = true ->
  articlemeta_document E (publisher_id document) (collection_acronym document)
  = Ok xml ->
  xml_is_valid E self xml = Ok (v, PyTree tree, msg) ->
  (v = true ->
   exists batch, Xml.find (Xml.ns "doi_batch_id") tree = Some batch) ->
  let code := code_of document in
  let t0 := now_at E (clock_reads w) in
  let t1 := now_at E (S (clock_reads w)) in
  exists w',
    deposit E self document w = (Ok tt, w')
    /\ (exists parsed sch,
          etree_parse E xml = Ok parsed
          /\ _setup_depositor self parsed = Ok tree
          /\ crossref_schema self = Some sch
          /\ (v = false -> assertValid sch tree = Some msg))
    /\ (exists row,
          rows_of code (deposits (committed w')) = [row]
          /\ submission_xml row = Some (etree_tostring E tree)
          /\ is_xml_valid row = Some v)
    /\ (v = false ->
        rows_of code (deposits (committed w'))
        = [ mkDeposit code (publisher_id document)
              (collection_acronym document) (code ++ ".xml") (doi document)
              (doi_prefix_of document) "error" None (Some false)
              (Some (etree_tostring E tree)) None t0 t1 t1 None ]
        /\ logevents (committed w')
           = (logevents (session w)
                ++ [ mkLogEvent (loading_title document) None "submission"
                       "info" code t0;
                     mkLogEvent (invalid_title document) (Some msg)
                       "submission" "error" code t1 ])%list)
    /\ session w' = committed w'.
Proof.
  intros Hnd Hp Hfetch Hvalid Hbatch code t0 t1.
  destruct (after_upsert_spec E document w Hnd)
    as (Hc & Hrows & Hlog & Hnd' & Hclk & Hf & _).
  destruct (xml_is_valid_tree E self xml Hvalid)
    as (parsed & sch & Hparse & Hsetup & Hsch & Hjudge).
  pass_gate E self document w Hp. take_fetch Hfetch.
  rewrite Hvalid. cbn [tostring].
  destruct v; cbn [negb].
  - destruct (Hbatch eq_refl) as [batch Hfind].
    cbn [find_text]. rewrite Hfind. read_clock E. read_clock E.
    eexists. split; [reflexivity|].
    split; [exists parsed, sch; repeat split; auto; discriminate|].
    world_simpl. rows_simpl. rewrite Hrows.
    split; [eexists; repeat split|].
    split; [discriminate | reflexivity].
  - read_clock E. eexists. split; [reflexivity|].
    split; [exists parsed, sch; repeat split; auto|].
    world_simpl. rows_simpl. rewrite Hrows, Hlog, Hclk, <- app_assoc.
    split; [eexists; repeat split|].
    repeat split.
Qed.

Lemma deposit_invalid_xml_witness :
  exists w',
    deposit Sample.E Sample.depositor Sample.invalid_doc empty_world
    = (Ok tt, w')
    /\ map (fun d => (submission_status d, is_xml_valid d, submission_xml d))
         (rows_of "scl_S0004" (deposits (committed w')))
       = [("error", Some false,
           Some (Sample.render
                   (Sample.batch "e5f6a7b8" (Some "SciELO")
                      (Some "crossref@scielo.org") false)))]
    /\ map (fun e => (kind e, ev_body e)) (logevents (committed w'))
       = [ (("submission", "info"), None);
           (("submission", "error"),
            Some "Element 'doi_batch': Missing child element(s).") ].
Proof.
  destruct (deposit_invalid_xml Sample.E Sample.depositor Sample.invalid_doc
              empty_world (xml := Sample.render Sample.bodiless_tree)
              (v := false)
              (tree := Sample.batch "e5f6a7b8" (Some "SciELO")
                         (Some "crossref@scielo.org") false)
              (msg := "Element 'doi_batch': Missing child element(s).")
              (NoDup_nil string) eq_refl eq_refl eq_refl
              (fun H : false = true =>
                 False_ind _ (Bool.diff_false_true H)))
    as (w' & Hrun & _ & _ & Hbad & _).
  destruct (Hbad eq_refl) as [Hrow Hlog].
  exists w'. split; [exact Hrun|]. split.
  - exact (f_equal
             (map (fun d =>
                     (submission_status d, is_xml_valid d, submission_xml d)))
             Hrow).
  - exact (f_equal (map (fun e => (kind e, ev_body e))) Hlog).
Defined.

(** C5. The request to the catalog raises: [deposit] returns normally, and
    the session holds the row at [error] with two timestamps renewed and the
    events [info] and [error] of type [submission], the second with the
    failure as body. None of it is committed: the [except] branch returns
    without [DBSession.commit()], so the database still shows the row as
    inserted, at [waiting], and no event of this call. *)
Theorem deposit_fetch_failure_pending (E : Collaborators) (self : Depositor)
  (document : Document) (w : World) (exc : exn) :
  NoDup (codes (session w)) ->
  prefix_matches E self document = true ->
  articlemeta_document E (publisher_id document) (collection_acronym document)
  = Raise exc ->
  let code := code_of document in
  let t0 := now_at E (clock_reads w) in
  let t1 := now_at E (S (clock_reads w)) in
  exists w',
    deposit E self document w = (Ok tt, w')
    /\ rows_of code (deposits (session w'))
       = [ mkDeposit code (publisher_id document)
             (collection_acronym document) (code ++ ".xml") (doi document)
             (doi_prefix_of document) "error" None None None None
             t0 t1 t1 None ]
    /\ logevents (session w')
       = (logevents (session w)
            ++ [ mkLogEvent (loading_title document) None "submission" "info"
                   code t0;
                 mkLogEvent (fetch_failed_title document)
                   (Some (str_of_exn exc)) "submission" "error" code t1
               ])%list
    /\ rows_of code (deposits (committed w')) = [fresh_row document t0]
    /\ logevents (committed w') = logevents (session w).
Proof.
  intros Hnd Hp Hfetch code t0 t1.
  destruct (after_upsert_spec E document w Hnd)
    as (Hc & Hrows & Hlog & Hnd' & Hclk & Hf & _).
  pass_gate E self document w Hp. take_fetch Hfetch. read_clock E.
  eexists. split; [reflexivity|].
  world_simpl. rows_simpl. rewrite Hc, Hrows, Hlog, Hclk, <- app_assoc.
  repeat split. exact Hrows.
Qed.

Lemma deposit_fetch_failure_pending_witness :
  exists w',
    deposit Sample.E Sample.depositor Sample.unreachable_doc empty_world
    = (Ok tt, w')
    /\ map submission_status
         (rows_of "scl_S0002" (deposits (session w'))) = ["error"]
    /\ map kind (logevents (session w'))
       = [("submission", "info"); ("submission", "error")]
    /\ map submission_status
         (rows_of "scl_S0002" (deposits (committed w'))) = ["waiting"]
    /\ logevents (committed w') = [].
Proof.
  destruct (deposit_fetch_failure_pending Sample.E Sample.depositor
              Sample.unreachable_doc empty_world
              (exc := Failure "ServerError: timeout")
              (NoDup_nil string) eq_refl eq_refl)
    as (w' & Hrun & Hrow & Hlog & Hdurable & Hnone).
  exists w'. split; [exact Hrun|].
  split; [exact (f_equal (map submission_status) Hrow)|].
  split; [exact (f_equal (map kind) Hlog)|].
  split; [exact (f_equal (map submission_status) Hdurable)|exact Hnone].
Defined.

(** C6. The fetched XML does not parse: [xml_is_valid] hands back the empty
    string in place of a tree, [etree.tostring] refuses it, and the
    [TypeError] leaves [deposit]; the row stays at [waiting] and the log
    gains the [info] event only. *)
Theorem deposit_malformed_xml_raises (E : Collaborators) (self : Depositor)
  (document : Document) (w : World) (xml : string) (e : exn) :
  NoDup (codes (session w)) ->
  prefix_matches E self document = true ->
  articlemeta_document E (publisher_id document) (collection_acronym document)
  = Ok xml ->
  etree_parse E xml = Raise e ->
  let code := code_of document in
  let t0 := now_at E (clock_reads w) in
  exists w',
    deposit E self document w
    = (Raise (TypeError "Type 'str' cannot be serialized."), w')
    /\ xml_is_valid E self xml = Ok (false, PyStr "", str_of_exn e)
    /\ rows_of code (deposits (committed w')) = [fresh_row document t0]
    /\ logevents (committed w')
       = (logevents (session w)
            ++ [ mkLogEvent (loading_title document) None "submission" "info"
                   code t0 ])%list
    /\ session w' = committed w'.
Proof.
  intros Hnd Hp Hfetch Hparse code t0.
  destruct (after_upsert_spec E document w Hnd)
    as (Hc & Hrows & Hlog & Hnd' & Hclk & Hf & _).
  assert (Hvalid : xml_is_valid E self xml = Ok (false, PyStr "", str_of_exn e))
    by (unfold xml_is_valid; now rewrite Hparse).
  pass_gate E self document w Hp. take_fetch Hfetch.
  rewrite Hvalid. cbn [tostring].
  eexists. split; [reflexivity|]. split; [reflexivity|].
  subst code t0. world_simpl. rewrite Hrows, Hlog.
  repeat split.
Qed.

Lemma deposit_malformed_xml_raises_witness :
  exists w',
    deposit Sample.E Sample.depositor Sample.malformed_doc empty_world
    = (Raise (TypeError "Type 'str' cannot be serialized."), w')
    /\ map submission_status
         (rows_of "scl_S0003" (deposits (committed w'))) = ["waiting"]
    /\ map kind (logevents (committed w')) = [("submission", "info")].
Proof.
  destruct (deposit_malformed_xml_raises Sample.E Sample.depositor
              Sample.malformed_doc empty_world (xml := "<doi_batch")
              (e := Failure "Document is empty, line 1, column 1")
              (NoDup_nil string) eq_refl eq_refl eq_refl)
    as (w' & Hrun & _ & Hrow & Hlog & _).
  exists w'. split; [exact Hrun|].
  split; [exact (f_equal (map submission_status) Hrow)|].
  exact (f_equal (map kind) Hlog).
Defined.

(** ** The pipeline, whatever the path *)

Ltac split_paths E self :=
  unfold fetch_xml; cbv iota beta;
  destruct (articlemeta_document E _ _) as [xml|exc];
  [ destruct (xml_is_valid E self xml) as [[[is_valid parsed] msg]|e];
    [ destruct (tostring E parsed) as [serialised|e];
      [ destruct is_valid; cbn [negb]; read_clock E;
        [ destruct (find_text _ parsed) as [batch|e]; [read_clock E|] | ]
      | ]
    | ]
  | read_clock E ].

Ltac all_paths E self document w :=
  enter_deposit E self document w;
  destruct (prefix_matches E self document); cbn [negb];
  [ split_paths E self | read_clock E ].

Lemma after_upsert_log (E : Collaborators) (document : Document) (w : World) :
  logevents (session (after_upsert E document w)) = logevents (session w)
  /\ clock_reads (after_upsert E document w) = S (clock_reads w).
Proof.
  unfold after_upsert, insert_fresh, delete_existing.
  destruct (DBSession.first_by_code _ _); split; reflexivity.
Qed.

Lemma deposit_codes (E : Collaborators) (self : Depositor)
  (document : Document) (w : World) :
  codes (session (snd (deposit E self document w)))
  = codes (session (after_upsert E document w))
  /\ codes (committed (snd (deposit E self document w)))
     = codes (session (after_upsert E document w)).
Proof.
  all_paths E self document w; world_simpl; unfold codes; world_simpl;
    repeat (rewrite codes_update_rows by (intros; reflexivity));
    split; reflexivity.
Qed.

Lemma deposit_preserves (E : Collaborators) (self : Depositor)
  (document : Document) (w : World) :
  NoDup (codes (session w)) ->
  NoDup (codes (session (snd (deposit E self document w))))
  /\ codes (committed (snd (deposit E self document w)))
     = codes (session (snd (deposit E self document w)))
  /\ In (code_of document) (codes (session (snd (deposit E self document w))))
  /\ (forall c, In c (codes (session w)) ->
                In c (codes (session (snd (deposit E self document w))))).
Proof.
  intros Hnd.
  destruct (after_upsert_spec E document w Hnd)
    as (_ & _ & _ & Hnd' & _ & _ & Hin & Hkeep).
  destruct (deposit_codes E self document w) as [Hs Hc].
  rewrite Hc, Hs. auto.
Qed.

Lemma deposit_seq_spec (E : Collaborators) (self : Depositor)
  (documents : list Document) :
  forall w, NoDup (codes (session w)) ->
  NoDup (codes (session (deposit_seq E self documents w)))
  /\ (forall c, In c (codes (session w)) ->
                In c (codes (session (deposit_seq E self documents w))))
  /\ (forall d, In d documents ->
                In (code_of d)
                   (codes (session (deposit_seq E self documents w))))
  /\ (documents <> [] ->
      codes (committed (deposit_seq E self documents w))
      = codes (session (deposit_seq E self documents w))).
Proof.
  induction documents as [|d ds IH]; intros w Hnd.
  - simpl. repeat split; auto; [intros ? []|congruence].
  - destruct (deposit_preserves E self d w Hnd) as (Hnd1 & Heq1 & Hin1 & Hk1).
    destruct (IH _ Hnd1) as (Hnd2 & Hk2 & Hin2 & Heq2).
    unfold deposit_seq in *. simpl.
    repeat split; auto.
    + intros d' [<-|Hd']; auto.
    + intros _. destruct ds as [|d' ds']; [exact Heq1|].
      apply Heq2. discriminate.
Qed.

(** The row a call leaves under the code of its document is the one the call
    inserted: it has the identifiers of the document and started when the
    call began. *)
Lemma deposit_row_of_call (E : Collaborators) (self : Depositor)
  (document : Document) (w : World) :
  NoDup (codes (session w)) ->
  let fresh := fresh_row document (now_at E (clock_reads w)) in
  let w' := snd (deposit E self document w) in
  exists durable pending,
    rows_of (code_of document) (deposits (committed w')) = [durable]
    /\ rows_of (code_of document) (deposits (session w')) = [pending]
    /\ identity durable = identity fresh
    /\ identity pending = identity fresh.
Proof.
  intros Hnd fresh w'. subst fresh w'.
  destruct (after_upsert_spec E document w Hnd) as (Hc & Hrows & _).
  all_paths E self document w; world_simpl; rows_simpl; rewrite ?Hc, Hrows;
    do 2 eexists; repeat split.
Qed.

(** C1. From a store with one row per code at most. Lines 101-105: a row
    found under the document's code is deleted and the deletion committed
    (no row of the code is left, in the session or in the database); when
    none is found nothing changes. Lines 107-108: the row then inserted and
    committed is the only one of the code, at [waiting], with its three
    timestamps equal to the one reading of the clock. The call is the rest
    of the pipeline run from that world, and however it ends the store
    holds one row for the code, committed and in the session alike, and it
    is the row of this call (the document's identifiers, started at this
    call's reading of the clock), not an earlier one. After any sequence of
    calls every code deposited has exactly one row, and one more call for
    the document leaves its own row as the only one of the code. *)
Theorem deposit_upsert_by_replace (E : Collaborators) (self : Depositor)
  (document : Document) (w : World) :
  NoDup (codes (session w)) ->
  let code := code_of document in
  let now := now_at E (clock_reads w) in
  let fresh := fresh_row document now in
  let w0 := snd (datetime_now E w) in
  let deleted := delete_existing code w0 in
  let inserted := insert_fresh fresh deleted in
  let w' := snd (deposit E self document w) in
  (forall old,
     DBSession.first_by_code code w0 = Some old ->
     rows_of code (deposits (session deleted)) = []
     /\ rows_of code (deposits (committed deleted)) = []
     /\ committed deleted = session deleted)
  /\ (DBSession.first_by_code code w0 = None -> deleted = w0)
  /\ rows_of code (deposits (session inserted)) = [fresh]
  /\ rows_of code (deposits (committed inserted)) = [fresh]
  /\ submission_status fresh = "waiting"
  /\ started_at fresh = now
  /\ updated_at fresh = now
  /\ submission_updated_at fresh = now
  /\ deposit E self document w = deposit_rest E self document now inserted
  /\ (exists durable pending,
        rows_of code (deposits (committed w')) = [durable]
        /\ rows_of code (deposits (session w')) = [pending]
        /\ identity durable = identity fresh
        /\ identity pending = identity fresh)
  /\ NoDup (codes (session w'))
  /\ (forall documents d,
        In d documents ->
        List.length
          (rows_of (code_of d)
             (deposits (committed (deposit_seq E self documents w))))
        = 1%nat)
  /\ (forall documents,
        let wn := deposit_seq E self documents w in
        exists row,
          rows_of code
            (deposits (committed (snd (deposit E self document wn)))) = [row]
          /\ identity row
             = identity (fresh_row document (now_at E (clock_reads wn)))).
Proof.
  intros Hnd code now fresh w0 deleted inserted w'.
  destruct (after_upsert_spec E document w Hnd)
    as (Hc & Hrows & _).
  destruct (deposit_preserves E self document w Hnd) as (Hnd1 & Heq & Hin & _).
  split; [|split; [|split; [|split; [|repeat split]]]].
  - intros old Hold.
    assert (Hgone : rows_of code (deposits (committed deleted)) = [])
      by now apply delete_existing_committed with (old := old).
    subst deleted. unfold delete_existing in *. rewrite Hold in *.
    split; [exact Hgone|]. split; [exact Hgone|reflexivity].
  - intros Hnone. subst deleted. unfold delete_existing. now rewrite Hnone.
  - exact Hrows.
  - change inserted with (after_upsert E document w). rewrite Hc. exact Hrows.
  - exact (deposit_row_of_call E self document w Hnd).
  - exact Hnd1.
  - intros documents d Hd.
    destruct (deposit_seq_spec E self documents w Hnd) as (Hnd2 & _ & Hin2 & Heq2).
    assert (Hne : documents <> []) by (intros ->; contradiction).
    apply rows_of_unique;
      fold (codes (committed (deposit_seq E self documents w)));
      rewrite (Heq2 Hne); auto.
  - intros documents wn.
    destruct (deposit_seq_spec E self documents w Hnd) as (Hnd2 & _).
    destruct (deposit_row_of_call E self document wn Hnd2)
      as (durable & _ & Hrow & _ & Hid & _).
    exists durable. split; [exact Hrow | exact Hid].
Qed.

Lemma deposit_upsert_by_replace_witness :
  NoDup (codes (session SampleStore.stale_world))
  /\ map identity
       (rows_of "scl_S0001" (deposits (committed SampleStore.stale_world)))
     = [ ("scl_S0001", "S0001", "scl", "scl_S0001.xml",
          Some "10.1590/S0001", "10.1590", 10) ]
  /\ rows_of "scl_S0001"
       (deposits (committed
          (delete_existing "scl_S0001"
             (snd (datetime_now Sample.E SampleStore.stale_world)))))
     = []
  /\ map identity
       (rows_of "scl_S0001"
          (deposits (committed
             (snd (deposit Sample.E Sample.depositor Sample.valid_doc
                     SampleStore.stale_world)))))
     = [ ("scl_S0001", "S0001", "scl", "scl_S0001.xml",
          Some "10.1590/S0001", "10.1590", 1000) ]
  /\ List.length
       (rows_of "scl_S0001"
          (deposits (committed
             (deposit_seq Sample.E Sample.depositor
                [Sample.valid_doc; Sample.foreign_doc; Sample.valid_doc]
                SampleStore.stale_world))))
     = 1%nat.
Proof.
  assert (Hnd : NoDup (codes (session SampleStore.stale_world)))
    by (repeat constructor; simpl; tauto).
  destruct (deposit_upsert_by_replace Sample.E Sample.depositor
              Sample.valid_doc SampleStore.stale_world Hnd)
    as (Hdel & _ & _ & _ & _ & _ & _ & _ & _ & Hrow & _ & Hseq & _).
  destruct (Hdel SampleStore.stale_row eq_refl) as (_ & Hgone & _).
  destruct Hrow as (durable & pending & Hdurable & _ & Hid & _).
  split; [exact Hnd|]. split; [reflexivity|]. split; [exact Hgone|].
  split.
  - change (rows_of "scl_S0001") with (rows_of (code_of Sample.valid_doc)).
    rewrite Hdurable. cbn [map]. rewrite Hid. reflexivity.
  - exact (Hseq [Sample.valid_doc; Sample.foreign_doc; Sample.valid_doc]
             Sample.valid_doc (or_introl eq_refl)).
Defined.

(** C10. Past the prefix gate, however the call ends (fetch failure,
    rejected XML, accepted XML, or an exception on the way), the row of the
    code holds in [feedback_status] and [feedback_updated_at] what the fresh
    row was created with, in the session and in the database. *)
Theorem deposit_feedback_untouched (E : Collaborators) (self : Depositor)
  (document : Document) (w : World) :
  NoDup (codes (session w)) ->
  prefix_matches E self document = true ->
  let code := code_of document in
  let fresh := fresh_row document (now_at E (clock_reads w)) in
  let w' := snd (deposit E self document w) in
  exists pending durable,
    rows_of code (deposits (session w')) = [pending]
    /\ rows_of code (deposits (committed w')) = [durable]
    /\ feedback_status pending = feedback_status fresh
    /\ feedback_updated_at pending = feedback_updated_at fresh
    /\ feedback_status durable = feedback_status fresh
    /\ feedback_updated_at durable = feedback_updated_at fresh.
Proof.
  intros Hnd Hp code fresh w'. subst code fresh w'.
  destruct (after_upsert_spec E document w Hnd) as (Hc & Hrows & _).
  pass_gate E self document w Hp.
  split_paths E self; world_simpl; rows_simpl; rewrite ?Hc, Hrows;
    do 2 eexists; repeat split.
Qed.

Lemma deposit_feedback_untouched_witness :
  map (fun d => (feedback_status d, feedback_updated_at d))
    (rows_of "scl_S0004"
       (deposits (committed
          (snd (deposit Sample.E Sample.depositor Sample.invalid_doc
                  empty_world)))))
  = [(None, None)].
Proof.
  destruct (deposit_feedback_untouched Sample.E Sample.depositor
              Sample.invalid_doc empty_world (NoDup_nil string) eq_refl)
    as (pending & durable & _ & Hrow & _ & _ & Hstatus & Hdate).
  change (rows_of "scl_S0004") with (rows_of (code_of Sample.invalid_doc)).
  rewrite Hrow. simpl. rewrite Hstatus, Hdate. reflexivity.
Defined.

(** ** Dates *)








(** ** Loading the schema *)

(** C7, as the claim has it, fails: with a schema file that does not parse,
    the constructor returns a depositor all the same, one that has no
    compiled schema, and the failure shows when the first document reaches
    validation. *)
Lemma broken_schema_construction_succeeds :
  crossref_xsd Sample.E_broken_xsd = Raise (Failure "XMLSchemaParseError")
  /\ __init__ Sample.E_broken_xsd "10.1590" (Some "user") (Some "secret")
       (Some "SciELO") (Some "crossref@scielo.org") false
     = Ok (mkDepositor "10.1590" (Some "user") (Some "secret")
             (Some "SciELO") (Some "crossref@scielo.org") false None)
  /\ fst (deposit Sample.E_broken_xsd
            (mkDepositor "10.1590" (Some "user") (Some "secret")
               (Some "SciELO") (Some "crossref@scielo.org") false None)
            Sample.valid_doc empty_world)
     = Raise (AttributeError
                "'Depositor' object has no attribute 'crossref_schema'").
Proof. repeat split. Qed.

(** C7, amended. When the schema file cannot be parsed, [_parse_schema]
    swallows the failure: the constructor still returns a depositor, with
    the configuration it was given and no compiled schema. The failure
    surfaces per document: every call of [deposit] whose document passes the
    gate, is fetched, parses and is rewritten raises [AttributeError]. *)
Theorem schema_failure_surfaces_per_document (E : Collaborators)
  (prefix0 : string) (user key name email : option string) (test : bool)
  (e : exn) :
  crossref_xsd E = Raise e ->
  __init__ E prefix0 user key name email test
  = Ok (mkDepositor prefix0 user key name email test None)
  /\ (forall self document w xml parsed tree,
        __init__ E prefix0 user key name email test = Ok self ->
        prefix_matches E self document = true ->
        articlemeta_document E (publisher_id document)
          (collection_acronym document) = Ok xml ->
        etree_parse E xml = Ok parsed ->
        _setup_depositor self parsed = Ok tree ->
        fst (deposit E self document w)
        = Raise (AttributeError
                   "'Depositor' object has no attribute 'crossref_schema'")).
Proof.
  intros Hxsd.
  assert (Hinit : __init__ E prefix0 user key name email test
                  = Ok (mkDepositor prefix0 user key name email test None))
    by (unfold __init__, _parse_schema; now rewrite Hxsd).
  split; [exact Hinit|].
  intros self document w xml parsed tree Hself Hp Hfetch Hparse Hsetup.
  rewrite Hinit in Hself. injection Hself as <-.
  assert (Hvalid :
            xml_is_valid E
              (mkDepositor prefix0 user key name email test None) xml
            = Raise (AttributeError
                       "'Depositor' object has no attribute 'crossref_schema'")).
  { unfold xml_is_valid. rewrite Hparse, Hsetup. reflexivity. }
  pass_gate E (mkDepositor prefix0 user key name email test None) document w
    Hp.
  take_fetch Hfetch. rewrite Hvalid. reflexivity.
Qed.

Lemma schema_failure_surfaces_per_document_witness :
  fst (deposit Sample.E_broken_xsd
         (mkDepositor "10.1590" None None None None false None)
         Sample.valid_doc empty_world)
  = Raise (AttributeError
             "'Depositor' object has no attribute 'crossref_schema'").
Proof.
  destruct (schema_failure_surfaces_per_document Sample.E_broken_xsd
              "10.1590" None None None None false
              (e := Failure "XMLSchemaParseError") eq_refl)
    as [Hinit Hlater].
  exact (Hlater _ Sample.valid_doc empty_world
           (Sample.render Sample.good_tree) Sample.good_tree Sample.good_tree
           Hinit eq_refl eq_refl eq_refl eq_refl).
Defined.

(** ** The batch driver *)

Lemma deposit_each_app (E : Collaborators) (self : Depositor)
  (l1 l2 : list Document) :
  forall w,
    deposit_each E self (l1 ++ l2)%list w
    = match deposit_each E self l1 w with
      | (Ok _, w') => deposit_each E self l2 w'
      | (Raise e, w') => (Raise e, w')
      end.
Proof.
  induction l1 as [|d l1 IH]; intros w; simpl; [reflexivity|].
  destruct (deposit E self d w) as [[[]|e] w']; [apply IH | reflexivity].
Qed.

Lemma run_issns_flat (E : Collaborators) (self : ExportDOI)
  (todo : list (option string)) :
  forall w,
    run_issns E self todo w
    = deposit_each E (_depositor self)
        (List.concat
           (map (fun issn =>
                   articlemeta_documents E (collection self) issn
                     (from_date self) (until_date self)) todo)) w.
Proof.
  induction todo as [|issn rest IH]; intros w; simpl; [reflexivity|].
  rewrite deposit_each_app.
  destruct (deposit_each E (_depositor self) _ w) as [[[]|e] w'];
    [apply IH | reflexivity].
Qed.

(** C8, as the claim has it, fails: the listing yields a document whose XML
    has no [registrant], then a valid one; the rewriter raises on the first,
    [run] ends with that exception after a single call of [deposit], and the
    second document, which [deposit] would accept, gets no row. *)
Lemma run_stops_at_unregistered_document :
  documents_of Sample.E Sample.exporter
  = [Sample.unregistered_doc; Sample.valid_doc]
  /\ fst (run Sample.E Sample.exporter empty_world)
     = Raise (AttributeError "'NoneType' object has no attribute 'text'")
  /\ clock_reads (snd (run Sample.E Sample.exporter empty_world)) = 1%nat
  /\ codes (session (snd (run Sample.E Sample.exporter empty_world)))
     = ["scl_S0005"]
  /\ rows_of (code_of Sample.valid_doc)
       (deposits (session (snd (run Sample.E Sample.exporter empty_world))))
     = []
  /\ fst (deposit Sample.E Sample.depositor Sample.valid_doc
            (snd (run Sample.E Sample.exporter empty_world)))
     = Ok tt.
Proof. repeat split. Qed.

(** C8, amended. An exception raised while one document is processed leaves
    [run] and ends the iteration there: the documents before it have been
    processed, the world is the one that document's call left, and no
    document after it is fed to the pipeline. *)
Theorem run_stops_at_first_exception (E : Collaborators) (self : ExportDOI)
  (w w1 w2 : World) (before after : list Document) (d : Document) (e : exn) :
  documents_of E self = (before ++ d :: after)%list ->
  deposit_each E (_depositor self) before w = (Ok tt, w1) ->
  deposit E (_depositor self) d w1 = (Raise e, w2) ->
  run E self w = (Raise e, w2)
  /\ run E self w = deposit_each E (_depositor self) (before ++ [d])%list w.
Proof.
  intros Hdocs Hbefore Hd.
  unfold run. rewrite run_issns_flat.
  fold (documents_of E self). rewrite Hdocs.
  rewrite !deposit_each_app, Hbefore. simpl. rewrite Hd. auto.
Qed.

Lemma run_stops_at_first_exception_witness :
  fst (run Sample.E Sample.exporter empty_world)
  = Raise (AttributeError "'NoneType' object has no attribute 'text'")
  /\ run Sample.E Sample.exporter empty_world
     = deposit_each Sample.E Sample.depositor [Sample.unregistered_doc]
         empty_world.
Proof.
  destruct (run_stops_at_first_exception Sample.E Sample.exporter
              empty_world [] [Sample.valid_doc] Sample.unregistered_doc
              (w1 := empty_world)
              (w2 := snd (deposit Sample.E Sample.depositor
                            Sample.unregistered_doc empty_world))
              (e := AttributeError "'NoneType' object has no attribute 'text'")
              eq_refl eq_refl eq_refl)
    as [Hrun Hsame].
  split; [rewrite Hrun; reflexivity | exact Hsame].
Defined.

(** ** The rewriter, in full *)

(** X1. When [_setup_depositor] returns, the configured name is the text of
    the [registrant] and of the [depositor_name] that [find] reports, and the
    configured address the text of the [email_address]; a later assignment
    never undoes an earlier one. *)
Theorem setup_depositor_fills_in (self : Depositor) (xml xml' : Xml.element) :
  _setup_depositor self xml = Ok xml' ->
  (forall name,
     depositor_name self = Some name -> name <> "" ->
     option_map Xml.text_of (Xml.find (Xml.ns "registrant") xml')
     = Some (Some name)
     /\ option_map Xml.text_of (Xml.find (Xml.ns "depositor_name") xml')
        = Some (Some name))
  /\ (forall email,
        depositor_email self = Some email -> email <> "" ->
        option_map Xml.text_of (Xml.find (Xml.ns "email_address") xml')
        = Some (Some email)).
Proof.
  rewrite setup_depositor_steps. intros Hrun.
  destruct (assignments_tags self) as [Hnd _].
  pose proof (assign_all_fills (assignments self) xml Hnd Hrun) as Hfill.
  split.
  - intros name Hname Hne. split; apply Hfill; apply in_assignments; left; auto.
  - intros email Hemail Hne. apply Hfill. apply in_assignments. right. auto.
Qed.

Lemma setup_depositor_fills_in_witness :
  option_map Xml.text_of
    (Xml.find (Xml.ns "registrant")
       (Sample.batch "a1b2c3d4" (Some "SciELO") (Some "crossref@scielo.org")
          true))
  = Some (Some "SciELO")
  /\ option_map Xml.text_of
       (Xml.find (Xml.ns "email_address")
          (Sample.batch "a1b2c3d4" (Some "SciELO")
             (Some "crossref@scielo.org") true))
     = Some (Some "crossref@scielo.org").
Proof.
  destruct (@setup_depositor_fills_in Sample.depositor Sample.good_tree
              (Sample.batch "a1b2c3d4" (Some "SciELO")
                 (Some "crossref@scielo.org") true) eq_refl)
    as [Hname Hemail].
  split.
  - apply (Hname "SciELO" eq_refl). discriminate.
  - apply (Hemail "crossref@scielo.org" eq_refl). discriminate.
Defined.

(** X2. [_setup_depositor] raises exactly when an element it has to write to
    is missing: the [registrant] or the [depositor_name] with a name
    configured, the [email_address] with an address configured. The
    exception is the [AttributeError] of [None.text]. With neither
    configured ([None] or the empty string) the tree comes back as it is. *)
Theorem setup_depositor_raises_iff (self : Depositor) (xml : Xml.element) :
  ((exists e, _setup_depositor self xml = Raise e)
   <-> (exists name,
          depositor_name self = Some name /\ name <> ""
          /\ (Xml.find (Xml.ns "registrant") xml = None
              \/ Xml.find (Xml.ns "depositor_name") xml = None))
       \/ (exists email,
             depositor_email self = Some email /\ email <> ""
             /\ Xml.find (Xml.ns "email_address") xml = None))
  /\ (forall e,
        _setup_depositor self xml = Raise e ->
        e = AttributeError "'NoneType' object has no attribute 'text'")
  /\ (Str.truthy (depositor_name self) = false ->
      Str.truthy (depositor_email self) = false ->
      _setup_depositor self xml = Ok xml).
Proof.
  rewrite setup_depositor_steps. split; [|split].
  - rewrite assign_all_raises. split.
    + intros (tag & v & Hin & Hnone). apply in_assignments in Hin.
      destruct Hin as [(Hn & Hv & [->| ->])|(Hm & Hv & ->)];
        [left; exists v | left; exists v | right; exists v]; auto.
    + intros [(name & Hn & Hv & [Hnone|Hnone])|(email & Hm & Hv & Hnone)].
      * exists (Xml.ns "registrant"), name. split; [|exact Hnone].
        apply in_assignments. left. auto.
      * exists (Xml.ns "depositor_name"), name. split; [|exact Hnone].
        apply in_assignments. left. auto.
      * exists (Xml.ns "email_address"), email. split; [|exact Hnone].
        apply in_assignments. right. auto.
  - intros e. apply assign_all_exception.
  - unfold assignments.
    destruct (depositor_name self) as [name|];
      destruct (depositor_email self) as [email|];
      intros Hn Hm; rewrite ?Hn, ?Hm; reflexivity.
Qed.

(** X3. [_setup_depositor] changes nothing but the text of [registrant],
    [depositor_name] and [email_address] elements: with those texts blanked,
    the tree it returns is the tree it was given, element for element. *)
Theorem setup_depositor_only_three_texts (self : Depositor)
  (xml xml' : Xml.element) :
  _setup_depositor self xml = Ok xml' ->
  mask rewritten_tags xml' = mask rewritten_tags xml.
Proof.
  rewrite setup_depositor_steps. apply assign_all_mask.
  apply assignments_tags.
Qed.

Lemma setup_depositor_only_three_texts_witness :
  mask rewritten_tags
    (Sample.batch "a1b2c3d4" (Some "SciELO") (Some "crossref@scielo.org")
       true)
  = mask rewritten_tags Sample.good_tree.
Proof.
  exact (@setup_depositor_only_three_texts Sample.depositor Sample.good_tree
           (Sample.batch "a1b2c3d4" (Some "SciELO")
              (Some "crossref@scielo.org") true) eq_refl).
Defined.

(** X4. [_setup_depositor] is idempotent: run on its own result, it returns
    that result unchanged. *)
Theorem setup_depositor_idempotent (self : Depositor)
  (xml xml' : Xml.element) :
  _setup_depositor self xml = Ok xml' ->
  _setup_depositor self xml' = Ok xml'.
Proof.
  rewrite !setup_depositor_steps. intros Hrun.
  destruct (assignments_tags self) as [Hnd _].
  apply assign_all_settled. intros tag v Hin.
  now apply (assign_all_fills (assignments self) xml Hnd Hrun).
Qed.

Lemma setup_depositor_idempotent_witness :
  _setup_depositor Sample.depositor
    (Sample.batch "a1b2c3d4" (Some "SciELO") (Some "crossref@scielo.org")
       true)
  = Ok (Sample.batch "a1b2c3d4" (Some "SciELO") (Some "crossref@scielo.org")
          true).
Proof.
  exact (@setup_depositor_idempotent Sample.depositor Sample.good_tree
           (Sample.batch "a1b2c3d4" (Some "SciELO")
              (Some "crossref@scielo.org") true) eq_refl).
Defined.

(** ** The pipeline and the rest of the store *)

Lemma rows_of_other_remove_first (code c : string) (l : list Deposit) :
  c <> code -> rows_of c (remove_first code l) = rows_of c l.
Proof.
  intros Hne. induction l as [|d l IH]; simpl; [reflexivity|].
  destruct (has_code code d) eqn:Hd.
  - apply has_code_true in Hd.
    assert (Hc : has_code c d = false) by (apply has_code_false; congruence).
    now rewrite Hc.
  - simpl. now rewrite IH.
Qed.

Lemma rows_of_other_update_rows (code c : string) (f : Deposit -> Deposit)
  (l : list Deposit) :
  c <> code -> (forall d, dep_code (f d) = dep_code d) ->
  rows_of c (update_rows code f l) = rows_of c l.
Proof.
  intros Hne Hf. induction l as [|d l IH]; simpl; [reflexivity|].
  destruct (has_code code d) eqn:Hd.
  - apply has_code_true in Hd.
    assert (Hc : has_code c d = false) by (apply has_code_false; congruence).
    assert (Hfc : has_code c (f d) = false)
      by (apply has_code_false; rewrite Hf; congruence).
    now rewrite Hc, Hfc.
  - rewrite IH. reflexivity.
Qed.

Lemma after_upsert_other (E : Collaborators) (document : Document) (w : World)
  (c : string) :
  c <> code_of document ->
  rows_of c (deposits (session (after_upsert E document w)))
  = rows_of c (deposits (session w)).
Proof.
  intros Hne. unfold after_upsert, insert_fresh, delete_existing.
  assert (Hfresh : forall t, has_code c (fresh_row document t) = false)
    by (intros t; apply has_code_false; simpl; congruence).
  destruct (DBSession.first_by_code (code_of document)
              (snd (datetime_now E w))) as [old|] eqn:Hold; simpl;
    rewrite rows_of_app; simpl; rewrite Hfresh, app_nil_r; [|reflexivity].
  unfold DBSession.first_by_code in Hold. apply find_has_code_some in Hold.
  rewrite Hold. now apply rows_of_other_remove_first.
Qed.

Ltac rows_other Hne :=
  repeat (rewrite (rows_of_other_update_rows _ _ Hne)
            by (intros; reflexivity)).

(** A call of [deposit] leaves the rows of every other code as the session
    had them, and commits them so. *)
Lemma deposit_other_rows (E : Collaborators) (self : Depositor)
  (document : Document) (w : World) (c : string) :
  c <> code_of document ->
  rows_of c (deposits (session (snd (deposit E self document w))))
  = rows_of c (deposits (session w))
  /\ rows_of c (deposits (committed (snd (deposit E self document w))))
     = rows_of c (deposits (session w)).
Proof.
  intros Hne. pose proof (after_upsert_other E document w Hne) as Hother.
  all_paths E self document w; world_simpl;
    change (committed (after_upsert E document w))
      with (session (after_upsert E document w));
    rows_other Hne; auto.
Qed.

(** The log a call of [deposit] leaves committed is the log of the session
    it was called with, followed by events of the document's code. *)
Lemma deposit_commits_log (E : Collaborators) (self : Depositor)
  (document : Document) (w : World) :
  exists evs,
    logevents (committed (snd (deposit E self document w)))
    = (logevents (session w) ++ evs)%list
    /\ Forall (fun e => ev_deposit_code e = code_of document) evs.
Proof.
  destruct (after_upsert_log E document w) as [Hlog _].
  all_paths E self document w; world_simpl;
    change (committed (after_upsert E document w))
      with (session (after_upsert E document w));
    rewrite ?Hlog, <- ?app_assoc;
    first [ eexists; split; [reflexivity | repeat constructor]
          | exists []; split; [now rewrite app_nil_r | constructor] ].
Qed.

(** X5. The exceptions that leave [deposit], for a depositor configured
    with a prefix and a session that holds nothing pending when the call is
    made: none when the prefix is foreign or the fetch fails; past the
    fetch, exactly when [xml_is_valid] raises (the rewriter, or a depositor
    without schema), when it hands back no tree (the XML did not parse), or
    when it accepts a tree that has no [doi_batch_id]. A tree the schema
    rejects never makes [deposit] raise. *)
Theorem deposit_raises_iff (E : Collaborators) (self : Depositor)
  (document : Document) (w : World) :
  session w = committed w ->
  ((exists e, fst (deposit E self document w) = Raise e)
   <-> prefix_matches E self document = true
       /\ exists xml,
            articlemeta_document E (publisher_id document)
              (collection_acronym document) = Ok xml
            /\ match xml_is_valid E self xml with
               | Raise _ => True
               | Ok (_, PyStr _, _) => True
               | Ok (true, PyTree tree, _) =>
                   Xml.find (Xml.ns "doi_batch_id") tree = None
               | Ok (false, PyTree _, _) => False
               end).
Proof.
  intros _. enter_deposit E self document w.
  destruct (prefix_matches E self document); cbn [negb].
  2:{ read_clock E. cbn [fst].
      split; [intros [e He]; discriminate | intros [Hp _]; discriminate]. }
  unfold fetch_xml. cbv iota beta.
  destruct (articlemeta_document E _ _) as [xml|exc].
  2:{ read_clock E. cbn [fst].
      split; [intros [e He]; discriminate
             | intros (_ & xml & Hx & _); discriminate]. }
  destruct (xml_is_valid E self xml) as [[[v parsed] msg]|e] eqn:Hv.
  2:{ cbn [fst]. split; [intros _|eauto].
      split; [reflexivity|]. exists xml. split; [reflexivity|].
      now rewrite Hv. }
  destruct parsed as [s|tree]; cbn [tostring].
  { cbn [fst]. split; [intros _|eauto].
    split; [reflexivity|]. exists xml. split; [reflexivity|].
    rewrite Hv. now destruct v. }
  destruct v; cbn [negb]; read_clock E.
  - cbn [find_text].
    destruct (Xml.find (Xml.ns "doi_batch_id") tree) as [batch|] eqn:Hb.
    + read_clock E. cbn [fst]. split; [intros [e He]; discriminate|].
      intros (_ & xml' & [= <-] & Hbad). rewrite Hv in Hbad. congruence.
    + cbn [fst]. split; [intros _|eauto].
      split; [reflexivity|]. exists xml. split; [reflexivity|].
      now rewrite Hv.
  - cbn [fst]. split; [intros [e He]; discriminate|].
    intros (_ & xml' & [= <-] & Hbad). rewrite Hv in Hbad. contradiction.
Qed.

Lemma deposit_raises_iff_witness :
  session empty_world = committed empty_world
  /\ fst (deposit Sample.E Sample.depositor Sample.malformed_doc empty_world)
     = Raise (TypeError "Type 'str' cannot be serialized.")
  /\ (exists e,
        fst (deposit Sample.E Sample.depositor Sample.malformed_doc
               empty_world) = Raise e)
  /\ ~ (exists e,
          fst (deposit Sample.E Sample.depositor Sample.invalid_doc
                 empty_world) = Raise e).
Proof.
  split; [reflexivity|]. split; [reflexivity|]. split.
  - apply (proj2 (deposit_raises_iff Sample.E Sample.depositor
                    Sample.malformed_doc empty_world eq_refl)).
    split; [reflexivity|]. exists "<doi_batch".
    split; [reflexivity | exact I].
  - intros Hraise.
    apply (proj1 (deposit_raises_iff Sample.E Sample.depositor
                    Sample.invalid_doc empty_world eq_refl)) in Hraise.
    destruct Hraise as (_ & xml & Hfetch & Hbad).
    injection Hfetch as <-. exact Hbad.
Defined.

(** X6. However a call of [deposit] ends, the row of the code carries the
    document's identifiers, file name, DOI and DOI prefix, and as
    [started_at] the first reading of the clock: no later step of the
    pipeline rewrites them. *)
Theorem deposit_identity_columns (E : Collaborators) (self : Depositor)
  (document : Document) (w : World) :
  NoDup (codes (session w)) ->
  exists row,
    rows_of (code_of document)
      (deposits (session (snd (deposit E self document w)))) = [row]
    /\ dep_code row = code_of document
    /\ dep_pid row = publisher_id document
    /\ dep_collection_acronym row = collection_acronym document
    /\ dep_xml_file_name row = code_of document ++ ".xml"
    /\ dep_doi row = doi document
    /\ dep_prefix row = doi_prefix_of document
    /\ started_at row = now_at E (clock_reads w).
Proof.
  intros Hnd.
  destruct (after_upsert_spec E document w Hnd) as (Hc & Hrows & _).
  all_paths E self document w; world_simpl; rows_simpl; rewrite Hrows;
    eexists; repeat split.
Qed.

Lemma deposit_identity_columns_witness :
  map (fun d => (dep_xml_file_name d, dep_prefix d, started_at d))
    (rows_of "scl_S0004"
       (deposits (session
          (snd (deposit Sample.E Sample.depositor Sample.invalid_doc
                  empty_world)))))
  = [("scl_S0004.xml", "10.1590", 1000)].
Proof.
  destruct (deposit_identity_columns Sample.E Sample.depositor
              Sample.invalid_doc empty_world (NoDup_nil string))
    as (row & Hrow & _ & _ & _ & Hfile & _ & Hprefix & Hstart).
  change (rows_of "scl_S0004") with (rows_of (code_of Sample.invalid_doc)).
  rewrite Hrow. simpl. rewrite Hfile, Hprefix, Hstart. reflexivity.
Defined.

(** X7. A call of [deposit] made with nothing pending in the session does
    not touch what the store holds for other codes: for every code but the
    document's, the session and the database hold the rows they held, the
    code is in the table after the call when and only when it was before,
    and the committed log is the one there was followed by events of the
    document's code only, so that the events of the other code are those
    there were. *)
Theorem deposit_leaves_other_codes (E : Collaborators) (self : Depositor)
  (document : Document) (w : World) (c : string) :
  session w = committed w ->
  c <> code_of document ->
  let w' := snd (deposit E self document w) in
  rows_of c (deposits (session w')) = rows_of c (deposits (session w))
  /\ rows_of c (deposits (committed w')) = rows_of c (deposits (committed w))
  /\ (exists evs,
        logevents (committed w') = (logevents (committed w) ++ evs)%list
        /\ Forall (fun e => ev_deposit_code e = code_of document) evs)
  /\ events_of c (logevents (committed w'))
     = events_of c (logevents (committed w))
  /\ (In c (codes (session w')) <-> In c (codes (session w))).
Proof.
  intros Hclean Hne w'. subst w'.
  destruct (deposit_other_rows E self document w Hne) as [Hs Hd].
  destruct (deposit_commits_log E self document w) as (evs & Hevs & Hall).
  split; [exact Hs|]. split; [now rewrite Hd, Hclean|].
  split; [exists evs; now rewrite Hevs, Hclean|].
  split.
  { rewrite Hevs, Hclean, events_of_app.
    assert (Hnone : events_of c evs = []).
    { clear Hevs. induction Hall as [|e r He _ IH]; [reflexivity|].
      simpl. unfold for_code at 1. rewrite He.
      assert (Hc : String.eqb (code_of document) c = false)
        by (apply String.eqb_neq; congruence).
      rewrite Hc. exact IH. }
    rewrite Hnone. apply app_nil_r. }
  unfold codes.
  split; intros Hin.
  - destruct (in_dec string_dec c (map dep_code (deposits (session w))))
      as [Hyes|Hno]; [exact Hyes|].
    apply rows_of_nil_iff in Hno. rewrite <- Hs in Hno.
    apply rows_of_nil_iff in Hno. contradiction.
  - destruct (in_dec string_dec c
                (map dep_code
                   (deposits (session (snd (deposit E self document w))))))
      as [Hyes|Hno]; [exact Hyes|].
    apply rows_of_nil_iff in Hno. rewrite Hs in Hno.
    apply rows_of_nil_iff in Hno. contradiction.
Qed.

Lemma deposit_leaves_other_codes_witness :
  session SampleStore.stale_world = committed SampleStore.stale_world
  /\ rows_of "scl_S0001"
       (deposits (committed
          (snd (deposit Sample.E Sample.depositor Sample.invalid_doc
                  SampleStore.stale_world))))
     = [SampleStore.stale_row]
  /\ events_of "scl_S0001"
       (logevents (committed
          (snd (deposit Sample.E Sample.depositor Sample.invalid_doc
                  SampleStore.stale_world))))
     = [SampleStore.stale_event].
Proof.
  assert (Hne : "scl_S0001" <> code_of Sample.invalid_doc)
    by (apply String.eqb_neq; reflexivity).
  destruct (deposit_leaves_other_codes Sample.E Sample.depositor
              Sample.invalid_doc SampleStore.stale_world eq_refl Hne)
    as (_ & Hrows & _ & Hevents & _).
  split; [reflexivity|]. split.
  - rewrite Hrows. reflexivity.
  - rewrite Hevents. reflexivity.
Defined.

(** X9. The states [deposit] can leave a row in. A foreign prefix gives
    [notapplicable] for both statuses and no verdict on the XML; a matching
    prefix gives [waiting] or [error] and no feedback status. A rejected XML
    goes with [error], an accepted one with [waiting]; a verdict comes with
    the XML stored, a batch id with an accepted XML. The status is never
    [success]. *)
Theorem deposit_status_consistent (E : Collaborators) (self : Depositor)
  (document : Document) (w : World) :
  NoDup (codes (session w)) ->
  exists row,
    rows_of (code_of document)
      (deposits (session (snd (deposit E self document w)))) = [row]
    /\ (prefix_matches E self document = false ->
        submission_status row = "notapplicable"
        /\ feedback_status row = Some "notapplicable"
        /\ is_xml_valid row = None /\ submission_xml row = None)
    /\ (prefix_matches E self document = true ->
        (submission_status row = "waiting" \/ submission_status row = "error")
        /\ feedback_status row = None)
    /\ (is_xml_valid row = Some false -> submission_status row = "error")
    /\ (is_xml_valid row = Some true -> submission_status row = "waiting")
    /\ (is_xml_valid row <> None -> submission_xml row <> None)
    /\ (doi_batch_id row <> None -> is_xml_valid row = Some true)
    /\ submission_status row <> "success".
Proof.
  intros Hnd.
  destruct (after_upsert_spec E document w Hnd) as (Hc & Hrows & _).
  enter_deposit E self document w.
  destruct (prefix_matches E self document); cbn [negb];
    [split_paths E self | read_clock E];
    world_simpl; rows_simpl; rewrite Hrows;
    (eexists; split; [reflexivity|]); cbn;
    repeat split; intros; try discriminate; try congruence; auto.
Qed.

Lemma deposit_status_consistent_witness :
  exists row,
    rows_of "scl_S0004"
      (deposits (session
         (snd (deposit Sample.E Sample.depositor Sample.invalid_doc
                 empty_world)))) = [row]
    /\ (is_xml_valid row = Some false -> submission_status row = "error")
    /\ submission_status row <> "success".
Proof.
  destruct (deposit_status_consistent Sample.E Sample.depositor
              Sample.invalid_doc empty_world (NoDup_nil string))
    as (row & Hrow & _ & _ & Herror & _ & _ & _ & Hnever).
  exists row. split; [exact Hrow|]. split; [exact Herror | exact Hnever].
Defined.

(** X10. The timestamps of the row, with a clock that never steps back:
    [started_at] is the reading taken when the call began, [updated_at] and
    [submission_updated_at] are one and the same reading taken during the
    call, no earlier than [started_at], and [feedback_updated_at], when set,
    is that reading too. *)
Theorem deposit_timestamps (E : Collaborators) (self : Depositor)
  (document : Document) (w : World) :
  monotone_clock E ->
  NoDup (codes (session w)) ->
  let w' := snd (deposit E self document w) in
  exists row k,
    rows_of (code_of document) (deposits (session w')) = [row]
    /\ started_at row = now_at E (clock_reads w)
    /\ updated_at row = now_at E k
    /\ (clock_reads w <= k < clock_reads w')%nat
    /\ submission_updated_at row = updated_at row
    /\ started_at row <= updated_at row
    /\ (forall t, feedback_updated_at row = Some t -> t = updated_at row).
Proof.
  intros Hmono Hnd w'. subst w'.
  destruct (after_upsert_spec E document w Hnd)
    as (Hc & Hrows & _ & _ & Hclk & _).
  all_paths E self document w; world_simpl; rows_simpl;
    rewrite Hrows, ?Hclk; cbn [map];
    first
      [ solve [ eexists; exists (S (clock_reads w));
                split; [reflexivity|]; cbn;
                repeat split; try lia; try (apply Hmono; lia);
                try (intros t [= <-]; reflexivity) ]
      | solve [ eexists; exists (clock_reads w);
                split; [reflexivity|]; cbn;
                repeat split; try lia; try (apply Hmono; lia);
                try discriminate ] ].
Qed.

Lemma deposit_timestamps_witness :
  exists row,
    rows_of "scl_S0002"
      (deposits (session
         (snd (deposit Sample.E Sample.depositor Sample.unreachable_doc
                 empty_world)))) = [row]
    /\ started_at row = 1000
    /\ submission_updated_at row = updated_at row
    /\ started_at row <= updated_at row.
Proof.
  assert (Hmono : monotone_clock Sample.E).
  { intros i j Hij. unfold Sample.E. cbn [now_at]. unfold Sample.clock. lia. }
  destruct (@deposit_timestamps Sample.E Sample.depositor
              Sample.unreachable_doc empty_world Hmono (NoDup_nil string))
    as (row & k & Hrow & Hstart & _ & _ & Hsame & Hle & _).
  exists row. split; [exact Hrow|]. split; [exact Hstart|].
  split; [exact Hsame | exact Hle].
Defined.

Ltac two_worlds E self document w1 w2 :=
  unfold deposit, deposit_rest; cbv zeta;
  change (datetime_now E w1)
    with (now_at E (clock_reads w1), snd (datetime_now E w1));
  change (datetime_now E w2)
    with (now_at E (clock_reads w2), snd (datetime_now E w2));
  cbv iota beta;
  change (insert_fresh _ (delete_existing _ (snd (datetime_now E w1))))
    with (after_upsert E document w1);
  change (insert_fresh _ (delete_existing _ (snd (datetime_now E w2))))
    with (after_upsert E document w2);
  unfold datetime_now, fetch_xml; cbv iota beta;
  destruct (String.eqb (str_lower E (doi_prefix_of document))
              (str_lower E (prefix self))); cbn [negb];
  [ destruct (articlemeta_document E _ _) as [xml|exc];
    [ destruct (xml_is_valid E self xml) as [[[is_valid parsed] msg]|e];
      [ destruct (tostring E parsed) as [serialised|e];
        [ destruct is_valid; cbn [negb];
          [ destruct (find_text _ parsed) as [batch|e] | ]
        | ]
      | ]
    | ]
  | ];
  world_simpl.

(** The outcome of [deposit] does not depend on the store. *)
Lemma deposit_outcome_fixed (E : Collaborators) (self : Depositor)
  (document : Document) (w1 w2 : World) :
  fst (deposit E self document w1) = fst (deposit E self document w2).
Proof. two_worlds E self document w1 w2; reflexivity. Qed.

Lemma deposit_session_row_fixed (E : Collaborators) (self : Depositor)
  (document : Document) (w1 w2 : World) :
  NoDup (codes (session w1)) ->
  NoDup (codes (session w2)) ->
  clock_reads w1 = clock_reads w2 ->
  rows_of (code_of document)
    (deposits (session (snd (deposit E self document w1))))
  = rows_of (code_of document)
      (deposits (session (snd (deposit E self document w2)))).
Proof.
  intros Hnd1 Hnd2 Hclock.
  destruct (after_upsert_spec E document w1 Hnd1)
    as (_ & Hrows1 & _ & _ & Hclk1 & _).
  destruct (after_upsert_spec E document w2 Hnd2)
    as (_ & Hrows2 & _ & _ & Hclk2 & _).
  two_worlds E self document w1 w2; rows_simpl;
    rewrite ?Hrows1, ?Hrows2, ?Hclk1, ?Hclk2, <- ?Hclock; reflexivity.
Qed.

Lemma deposit_committed_row_fixed (E : Collaborators) (self : Depositor)
  (document : Document) (w1 w2 : World) :
  NoDup (codes (session w1)) ->
  NoDup (codes (session w2)) ->
  clock_reads w1 = clock_reads w2 ->
  rows_of (code_of document)
    (deposits (committed (snd (deposit E self document w1))))
  = rows_of (code_of document)
      (deposits (committed (snd (deposit E self document w2)))).
Proof.
  intros Hnd1 Hnd2 Hclock.
  destruct (after_upsert_spec E document w1 Hnd1)
    as (Hc1 & Hrows1 & _ & _ & Hclk1 & _).
  destruct (after_upsert_spec E document w2 Hnd2)
    as (Hc2 & Hrows2 & _ & _ & Hclk2 & _).
  two_worlds E self document w1 w2; rows_simpl;
    rewrite ?Hc1, ?Hc2, ?Hrows1, ?Hrows2, ?Hclk1, ?Hclk2, <- ?Hclock;
    reflexivity.
Qed.

Lemma deposit_events_fixed (E : Collaborators) (self : Depositor)
  (document : Document) (w1 w2 : World) :
  clock_reads w1 = clock_reads w2 ->
  exists evs,
    logevents (session (snd (deposit E self document w1)))
    = (logevents (session w1) ++ evs)%list
    /\ logevents (session (snd (deposit E self document w2)))
       = (logevents (session w2) ++ evs)%list.
Proof.
  intros Hclock.
  destruct (after_upsert_log E document w1) as [Hlog1 Hclk1].
  destruct (after_upsert_log E document w2) as [Hlog2 Hclk2].
  two_worlds E self document w1 w2;
    rewrite ?Hlog1, ?Hlog2, ?Hclk1, ?Hclk2, <- ?app_assoc, <- ?Hclock;
    first [ eexists; split; reflexivity
          | exists []; now rewrite !app_nil_r ].
Qed.

(** X11. A re-deposit replaces and never merges: the outcome of [deposit],
    the row it leaves for the code (in the session and in the database) and
    the events it appends are the same whatever the store held before, an
    earlier row of the same code included; they depend on the document, the
    collaborators and the readings of the clock only. *)
Theorem deposit_forgets_previous_row (E : Collaborators) (self : Depositor)
  (document : Document) (w1 w2 : World) :
  NoDup (codes (session w1)) ->
  NoDup (codes (session w2)) ->
  clock_reads w1 = clock_reads w2 ->
  let r1 := deposit E self document w1 in
  let r2 := deposit E self document w2 in
  fst r1 = fst r2
  /\ rows_of (code_of document) (deposits (session (snd r1)))
     = rows_of (code_of document) (deposits (session (snd r2)))
  /\ rows_of (code_of document) (deposits (committed (snd r1)))
     = rows_of (code_of document) (deposits (committed (snd r2)))
  /\ (exists evs,
        logevents (session (snd r1)) = (logevents (session w1) ++ evs)%list
        /\ logevents (session (snd r2))
           = (logevents (session w2) ++ evs)%list).
Proof.
  intros Hnd1 Hnd2 Hclock r1 r2. subst r1 r2.
  split; [apply deposit_outcome_fixed|].
  split; [now apply deposit_session_row_fixed|].
  split; [now apply deposit_committed_row_fixed|].
  now apply deposit_events_fixed.
Qed.

Lemma deposit_forgets_previous_row_witness :
  rows_of "scl_S0001"
    (deposits (committed
       (snd (deposit Sample.E Sample.depositor Sample.valid_doc
               SampleStore.stale_world))))
  = rows_of "scl_S0001"
      (deposits (committed
         (snd (deposit Sample.E Sample.depositor Sample.valid_doc
                 empty_world)))).
Proof.
  assert (Hnd : NoDup (codes (session SampleStore.stale_world)))
    by (repeat constructor; simpl; tauto).
  exact (proj1 (proj2 (proj2
           (deposit_forgets_previous_row Sample.E Sample.depositor
              Sample.valid_doc SampleStore.stale_world empty_world
              Hnd (NoDup_nil string) eq_refl)))).
Defined.

(** ** The DOI prefix *)

Lemma before_slash_split (s : string) :
  exists rest,
    s = Str.before_slash s ++ rest
    /\ ~ In "/"%char (chars (Str.before_slash s))
    /\ (rest = "" \/ exists r, rest = String "/" r).
Proof.
  induction s as [|c s IH]; simpl.
  - exists "". simpl. tauto.
  - destruct (Ascii.eqb_spec c "/"%char) as [->|Hne].
    + exists (String "/" s). simpl. split; [reflexivity|].
      split; [tauto|]. right. now exists s.
    + destruct IH as (rest & Hs & Hno & Hrest). exists rest. simpl.
      split; [now rewrite <- Hs|]. split; [|exact Hrest].
      intros [Hc|Hin]; [congruence | contradiction].
Qed.

Lemma before_slash_join (p r : string) :
  ~ In "/"%char (chars p) -> Str.before_slash (p ++ String "/" r) = p.
Proof.
  induction p as [|c p IH]; simpl; intros Hno; [reflexivity|].
  destruct (Ascii.eqb_spec c "/"%char) as [->|Hne]; [tauto|].
  rewrite IH; [reflexivity|tauto].
Qed.

Lemma before_slash_whole (p : string) :
  ~ In "/"%char (chars p) -> Str.before_slash p = p.
Proof.
  induction p as [|c p IH]; simpl; intros Hno; [reflexivity|].
  destruct (Ascii.eqb_spec c "/"%char) as [->|Hne]; [tauto|].
  rewrite IH; [reflexivity|tauto].
Qed.

Lemma doi_prefix_of_join (c i p r : string) :
  ~ In "/"%char (chars p) ->
  doi_prefix_of (mkDocument c i (Some (p ++ "/" ++ r))) = p.
Proof.
  intros Hno. unfold doi_prefix_of, Str.truthy. cbn [doi].
  destruct (String.eqb_spec (p ++ "/" ++ r) "") as [Hempty|Hne]; cbn [negb].
  - destruct p; simpl in Hempty; discriminate.
  - now apply before_slash_join.
Qed.

(** X12. The DOI prefix [deposit] stores and tests. A document without DOI
    has the empty prefix. Otherwise the prefix is the part of the DOI before
    its first slash: it has no slash, and the DOI is the prefix followed by
    nothing or by a slash and the rest. So the DOI [p/r] with [p] free of
    slashes has prefix [p], and a DOI without slash is its own prefix. *)
Theorem doi_prefix_of_spec :
  (forall c i, doi_prefix_of (mkDocument c i None) = "")
  /\ (forall c i d,
        exists rest,
          d = doi_prefix_of (mkDocument c i (Some d)) ++ rest
          /\ ~ In "/"%char (chars (doi_prefix_of (mkDocument c i (Some d))))
          /\ (rest = "" \/ exists r, rest = String "/" r))
  /\ (forall c i p r,
        ~ In "/"%char (chars p) ->
        doi_prefix_of (mkDocument c i (Some (p ++ "/" ++ r))) = p)
  /\ (forall c i p,
        ~ In "/"%char (chars p) ->
        doi_prefix_of (mkDocument c i (Some p)) = p).
Proof.
  split; [reflexivity|]. split; [|split].
  - intros c i d. unfold doi_prefix_of, Str.truthy. cbn [doi].
    destruct (String.eqb_spec d "") as [->|Hne]; cbn [negb].
    + exists "". simpl. tauto.
    + apply before_slash_split.
  - intros c i p r Hno. now apply doi_prefix_of_join.
  - intros c i p Hno. unfold doi_prefix_of, Str.truthy. cbn [doi].
    destruct (String.eqb_spec p "") as [->|Hne];
      cbn [negb]; [reflexivity|]. now apply before_slash_whole.
Qed.

Lemma lower_ascii_idempotent (c : ascii) :
  Str.lower_ascii (Str.lower_ascii c) = Str.lower_ascii c.
Proof. destruct c as [[] [] [] [] [] [] [] []]; reflexivity. Qed.

Lemma lower_ascii_slash (c : ascii) :
  Ascii.eqb (Str.lower_ascii c) "/"%char = Ascii.eqb c "/"%char.
Proof. destruct c as [[] [] [] [] [] [] [] []]; reflexivity. Qed.

Lemma lower_idempotent (s : string) : Str.lower (Str.lower s) = Str.lower s.
Proof.
  induction s as [|c s IH]; simpl; [reflexivity|].
  now rewrite lower_ascii_idempotent, IH.
Qed.

Lemma before_slash_lower (s : string) :
  Str.before_slash (Str.lower s) = Str.lower (Str.before_slash s).
Proof.
  induction s as [|c s IH]; simpl; [reflexivity|].
  rewrite lower_ascii_slash. destruct (Ascii.eqb c "/"%char); [reflexivity|].
  simpl. now rewrite IH.
Qed.

Lemma doi_prefix_of_lower (E : Collaborators) (c i d : string) :
  lower_regular E ->
  str_lower E (doi_prefix_of (mkDocument c i (Some (str_lower E d))))
  = str_lower E (doi_prefix_of (mkDocument c i (Some d))).
Proof.
  intros [Hidem Hcut]. unfold doi_prefix_of, Str.truthy. cbn [doi].
  destruct (String.eqb_spec (str_lower E d) "") as [Hl|Hl]; cbn [negb].
  - assert (Hnil : str_lower E "" = "").
    { rewrite <- Hl at 1. rewrite Hidem. exact Hl. }
    destruct (String.eqb_spec d "") as [Hd|Hd]; cbn [negb]; [reflexivity|].
    rewrite Hnil, <- Hcut, Hl. reflexivity.
  - rewrite Hcut, Hidem.
    destruct (String.eqb_spec d "") as [->|Hd]; cbn [negb]; reflexivity.
Qed.

Lemma lower_regular_ascii (E : Collaborators) :
  str_lower E = Str.lower -> lower_regular E.
Proof.
  intros H. unfold lower_regular. rewrite H.
  split; [exact lower_idempotent | exact before_slash_lower].
Qed.

(** X13. The prefix gate does not look at the case of letters. Provided
    [lower()] changes nothing in a string it has already lowered and cuts at
    the first slash as the string it lowers does (both hold of the ASCII
    folding of the sample deployments): lowering the configured prefix, the
    DOI of the document, or both, leaves the verdict of the gate as it is.
    And whatever [lower()] is, a DOI made of the configured prefix, a slash
    and anything passes the gate, when the prefix has no slash. *)
Theorem prefix_gate_ignores_case (E : Collaborators) (self : Depositor)
  (document : Document) :
  (lower_regular E ->
   prefix_matches E
     (mkDepositor (str_lower E (prefix self)) (api_user self) (api_key self)
        (depositor_name self) (depositor_email self) (test_mode self)
        (crossref_schema self))
     document
   = prefix_matches E self document
   /\ prefix_matches E self
        (mkDocument (collection_acronym document) (publisher_id document)
           (option_map (str_lower E) (doi document)))
      = prefix_matches E self document)
  /\ (forall suffix,
        ~ In "/"%char (chars (prefix self)) ->
        prefix_matches E self
          (mkDocument (collection_acronym document) (publisher_id document)
             (Some (prefix self ++ "/" ++ suffix)))
        = true).
Proof.
  unfold prefix_matches. cbn [prefix]. split.
  - intros Hreg. split.
    + destruct Hreg as [Hidem _]. now rewrite Hidem.
    + destruct document as [c i [d|]]; cbn [option_map doi collection_acronym
        publisher_id]; [|reflexivity].
      now rewrite (doi_prefix_of_lower c i d Hreg).
  - intros suffix Hno.
    rewrite (@doi_prefix_of_join (collection_acronym document)
               (publisher_id document) (prefix self) suffix Hno).
    apply String.eqb_refl.
Qed.

Lemma prefix_gate_ignores_case_witness :
  lower_regular Sample.E
  /\ prefix_matches Sample.E
       (mkDepositor "10.scielo" (Some "user") (Some "key") (Some "SciELO")
          (Some "crossref@scielo.org") true (Some Sample.schema))
       (mkDocument "scl" "S0001" (Some "10.SciELO/S0001"))
     = prefix_matches Sample.E Sample.mixed_depositor
         (mkDocument "scl" "S0001" (Some "10.SciELO/S0001"))
  /\ prefix_matches Sample.E Sample.mixed_depositor
       (mkDocument "scl" "S0001" (Some "10.scielo/s0001"))
     = prefix_matches Sample.E Sample.mixed_depositor
         (mkDocument "scl" "S0001" (Some "10.SciELO/S0001")).
Proof.
  assert (Hreg : lower_regular Sample.E)
    by (apply lower_regular_ascii; reflexivity).
  split; [exact Hreg|].
  exact (proj1 (prefix_gate_ignores_case Sample.E Sample.mixed_depositor
                  (mkDocument "scl" "S0001" (Some "10.SciELO/S0001")))
           Hreg).
Defined.

(** ** The batch driver, the command line and [deposit_by_pid] *)

Lemma deposit_each_ok (E : Collaborators) (self : Depositor)
  (documents : list Document) :
  forall w u w',
    deposit_each E self documents w = (Ok u, w') ->
    w' = deposit_seq E self documents w.
Proof.
  unfold deposit_seq.
  induction documents as [|d ds IH]; simpl; intros w u w'.
  - now intros [= _ <-].
  - destruct (deposit E self d w) as [[[]|e] w1] eqn:Hd; [|discriminate].
    simpl. apply IH.
Qed.

(** A call that returns, its fetch having returned when one was made, leaves
    nothing pending. *)
Lemma deposit_returns_clean (E : Collaborators) (self : Depositor)
  (document : Document) (w : World) (u : unit) (w' : World) :
  (prefix_matches E self document = true ->
   exists xml,
     articlemeta_document E (publisher_id document)
       (collection_acronym document) = Ok xml) ->
  deposit E self document w = (Ok u, w') ->
  session w' = committed w'.
Proof.
  intros Hfetch. enter_deposit E self document w.
  destruct (prefix_matches E self document); cbn [negb];
    [|read_clock E; intros [= _ <-]; reflexivity].
  destruct (Hfetch eq_refl) as [xml Hx]. take_fetch Hx.
  destruct (xml_is_valid E self xml) as [[[v parsed] msg]|e];
    [|intros H; discriminate H].
  destruct (tostring E parsed) as [serialised|e]; [|intros H; discriminate H].
  destruct v; cbn [negb]; read_clock E;
    [|intros [= _ <-]; reflexivity].
  destruct (find_text _ parsed) as [batch|e]; [|intros H; discriminate H].
  read_clock E. intros [= _ <-]. reflexivity.
Qed.

Lemma deposit_each_clean (E : Collaborators) (self : Depositor)
  (documents : list Document) :
  (forall d,
     In d documents -> prefix_matches E self d = true ->
     exists xml,
       articlemeta_document E (publisher_id d) (collection_acronym d)
       = Ok xml) ->
  forall w u w',
    session w = committed w ->
    deposit_each E self documents w = (Ok u, w') ->
    session w' = committed w'.
Proof.
  induction documents as [|d ds IH]; simpl; intros Hfetch w u w' Hclean.
  - now intros [= _ <-].
  - destruct (deposit E self d w) as [[u1|e] w1] eqn:Hd;
      [|intros H; discriminate H].
    apply IH; [intros d' Hin; apply Hfetch; now right|].
    apply (@deposit_returns_clean E self d w u1 w1); [|exact Hd].
    apply Hfetch. now left.
Qed.

(** X14. A run in which no fetch fails, started from a store with one row
    per code at most and nothing pending, and that returns: it has fed every
    listed document to the pipeline, in order (the world it leaves is the
    one the successive calls of [deposit] leave), every listed document has
    exactly one committed row, and nothing is left pending. *)
Theorem run_ok_deposits_all (E : Collaborators) (self : ExportDOI)
  (w w' : World) :
  NoDup (codes (session w)) ->
  session w = committed w ->
  (forall d,
     In d (documents_of E self) ->
     prefix_matches E (_depositor self) d = true ->
     exists xml,
       articlemeta_document E (publisher_id d) (collection_acronym d)
       = Ok xml) ->
  run E self w = (Ok tt, w') ->
  w' = deposit_seq E (_depositor self) (documents_of E self) w
  /\ NoDup (codes (session w'))
  /\ (forall d,
        In d (documents_of E self) ->
        List.length (rows_of (code_of d) (deposits (committed w'))) = 1%nat)
  /\ session w' = committed w'.
Proof.
  intros Hnd Hclean Hfetch Hrun. unfold run in Hrun.
  rewrite run_issns_flat in Hrun.
  fold (documents_of E self) in Hrun.
  pose proof (@deposit_each_clean E (_depositor self) (documents_of E self)
                Hfetch w tt w' Hclean Hrun) as Hclean'.
  apply deposit_each_ok in Hrun.
  destruct (deposit_seq_spec E (_depositor self) (documents_of E self) w Hnd)
    as (Hnd' & _ & Hin & Heq).
  rewrite <- Hrun in *. split; [reflexivity|]. split; [exact Hnd'|].
  split; [|exact Hclean'].
  intros d Hd.
  assert (Hne : documents_of E self <> []) by (intros Hnil; now rewrite Hnil in Hd).
  apply rows_of_unique; fold (codes (committed w')); rewrite (Heq Hne); auto.
Qed.

Lemma run_ok_deposits_all_witness :
  documents_of SampleStore.E_quiet Sample.exporter
  = [Sample.valid_doc; Sample.invalid_doc; Sample.foreign_doc]
  /\ List.length
       (rows_of "scl_S0004"
          (deposits (committed
             (snd (run SampleStore.E_quiet Sample.exporter empty_world)))))
     = 1%nat
  /\ session (snd (run SampleStore.E_quiet Sample.exporter empty_world))
     = committed (snd (run SampleStore.E_quiet Sample.exporter empty_world)).
Proof.
  assert (Hrun : run SampleStore.E_quiet Sample.exporter empty_world
                 = (Ok tt,
                    snd (run SampleStore.E_quiet Sample.exporter
                           empty_world)))
    by (vm_compute; reflexivity).
  assert (Hfetch :
            forall d,
              In d (documents_of SampleStore.E_quiet Sample.exporter) ->
              prefix_matches SampleStore.E_quiet
                (_depositor Sample.exporter) d = true ->
              exists xml,
                articlemeta_document SampleStore.E_quiet (publisher_id d)
                  (collection_acronym d) = Ok xml).
  { intros d [<-|[<-|[<-|[]]]] Hp; [eexists; reflexivity ..|].
    vm_compute in Hp. discriminate Hp. }
  destruct (@run_ok_deposits_all SampleStore.E_quiet Sample.exporter
              empty_world
              (snd (run SampleStore.E_quiet Sample.exporter empty_world))
              (NoDup_nil string) eq_refl Hfetch Hrun)
    as (_ & _ & Hrows & Hclean).
  split; [reflexivity|]. split; [|exact Hclean].
  exact (Hrows Sample.invalid_doc (or_intror (or_introl eq_refl))).
Defined.

(** X15. An exporter built without ISSNs ([None] or the empty list) asks the
    catalog once, for the whole collection: the documents [run] goes through
    are those of the unfiltered listing. The constructor itself never
    raises, whatever the schema file. *)
Theorem export_without_issns_is_unfiltered (E : Collaborators)
  (collection0 from0 until0 prefix0 : string)
  (user key name email : option string) (test : bool)
  (given : option (list (option string))) :
  exists self,
    ExportDOI_init E collection0 given from0 until0 prefix0 user key name
      email test = Ok self
    /\ issns self <> []
    /\ ((given = None \/ given = Some []) ->
        documents_of E self
        = articlemeta_documents E collection0 None from0 until0
        /\ forall w,
             run E self w
             = deposit_each E (_depositor self)
                 (articlemeta_documents E collection0 None from0 until0) w).
Proof.
  unfold ExportDOI_init, __init__, _parse_schema.
  destruct (crossref_xsd E) as [sch|e]; cbn [bind];
    (eexists; split; [reflexivity|]; cbn [issns];
     split; [destruct given as [[|i r]|]; discriminate|];
     intros [->| ->]; unfold run, documents_of;
     cbn [issns collection from_date until_date _depositor map List.concat];
     (split; [apply app_nil_r|]); intros w; rewrite run_issns_flat;
     cbn [issns collection from_date until_date _depositor map List.concat];
     now rewrite app_nil_r).
Qed.

(** X16. The ISSNs [main] passes on are those of the command line that the
    check keeps, followed by those of the file that it keeps. When it keeps
    none, because none was given or because all were refused, the exporter
    is built as without ISSNs and goes through the whole collection. *)
Theorem main_issns_merge (E : Collaborators)
  (check : list string -> list string) (strip : string -> string)
  (args_issns : list string) (issns_file : option (list string))
  (collection0 from0 until0 prefix0 : string)
  (user key name email : option string) (test : bool) :
  Main.issns check strip args_issns issns_file
  = (match args_issns with [] => [] | _ :: _ => check args_issns end
     ++ match issns_file with
        | Some lines => check (map strip lines)
        | None => []
        end)%list
  /\ exists self,
       Main.exporter check strip E collection0 args_issns issns_file from0
         until0 prefix0 user key name email test = Ok self
       /\ issns self
          = match Main.issns check strip args_issns issns_file with
            | [] => [None]
            | i :: r => map Some (i :: r)
            end.
Proof.
  split.
  - unfold Main.issns.
    destruct args_issns as [|a args]; [|destruct (check (a :: args))];
      (destruct issns_file as [lines|];
       [destruct (check (map strip lines))|]);
      cbn [app]; rewrite ?app_nil_r; reflexivity.
  - unfold Main.exporter, ExportDOI_init, __init__, _parse_schema.
    destruct (crossref_xsd E) as [sch|e]; cbn [bind];
      (eexists; split; [reflexivity|]; cbn [issns];
       now destruct (Main.issns check strip args_issns issns_file)).
Qed.

(** X17. [deposit_by_pid] creates no row when the catalog has no record or
    cannot be reached: the exception leaves it with the store as it was.
    When the record is found, the row is filed under the record's own
    identifiers, one row for that code, and the rows of other codes are as
    they were. *)
Theorem deposit_by_pid_outcomes (E : Collaborators)
  (lookup : string -> string -> result (option Document))
  (self : Depositor) (pid collection0 : string) (w : World) :
  NoDup (codes (session w)) ->
  match lookup pid collection0 with
  | Raise e =>
      deposit_by_pid E lookup self pid collection0 w = (Raise e, w)
  | Ok None =>
      exists e, deposit_by_pid E lookup self pid collection0 w = (Raise e, w)
  | Ok (Some document) =>
      let w' := snd (deposit_by_pid E lookup self pid collection0 w) in
      List.length (rows_of (code_of document) (deposits (committed w')))
      = 1%nat
      /\ (forall c, c <> code_of document ->
                    rows_of c (deposits (session w'))
                    = rows_of c (deposits (session w)))
  end.
Proof.
  intros Hnd. unfold deposit_by_pid.
  destruct (lookup pid collection0) as [[document|]|e]; [|eauto|reflexivity].
  destruct (deposit_preserves E self document w Hnd) as (Hnd1 & Heq & Hin & _).
  split.
  - apply rows_of_unique;
      fold (codes (committed (snd (deposit E self document w))));
      rewrite Heq; assumption.
  - intros c Hne. apply (deposit_other_rows E self document w Hne).
Qed.

Lemma deposit_by_pid_outcomes_witness :
  List.length
    (rows_of "scl_S0001"
       (deposits (committed
          (snd (deposit_by_pid Sample.E
                  (fun pid collection =>
                     if String.eqb pid "S0001"
                     then Ok (Some Sample.valid_doc) else Ok None)
                  Sample.depositor "S0001" "scl" empty_world)))))
  = 1%nat.
Proof.
  exact (proj1
           (deposit_by_pid_outcomes Sample.E
              (fun pid collection =>
                 if String.eqb pid "S0001"
                 then Ok (Some Sample.valid_doc) else Ok None)
              Sample.depositor "S0001" "scl" empty_world
              (NoDup_nil string))).
Defined.

(** X18. [xml_is_valid] raises exactly when the XML parses and then either
    the rewriter raises or the depositor has no compiled schema; an XML that
    does not parse is reported, not raised. What it returns is coherent: a
    positive verdict comes with a tree and an empty message, and the empty
    string in place of a tree comes with a negative verdict. *)
Theorem xml_is_valid_raises_iff (E : Collaborators) (self : Depositor)
  (xml : string) :
  ((exists e, xml_is_valid E self xml = Raise e)
   <-> exists parsed,
         etree_parse E xml = Ok parsed
         /\ ((exists e, _setup_depositor self parsed = Raise e)
             \/ crossref_schema self = None))
  /\ (forall v p m,
        xml_is_valid E self xml = Ok (v, p, m) ->
        (v = true -> m = "" /\ exists tree, p = PyTree tree)
        /\ (forall s, p = PyStr s -> s = "" /\ v = false)).
Proof.
  unfold xml_is_valid.
  destruct (etree_parse E xml) as [parsed|e0] eqn:Hparse.
  - destruct (_setup_depositor self parsed) as [tree|e1] eqn:Hsetup;
      cbn [bind].
    + destruct (crossref_schema self) as [sch|].
      * assert (Hquiet :
                  ~ (exists p,
                       Ok parsed = Ok p
                       /\ ((exists e, _setup_depositor self p = Raise e)
                           \/ Some sch = None))).
        { intros (p & [= <-] & [[e He]|Hs]); [|discriminate].
          rewrite Hsetup in He. discriminate. }
        destruct (assertValid sch tree) as [msg|]; split.
        -- split; [intros [e He]; discriminate | intros H; now apply Hquiet in H].
        -- intros v p m [= <- <- <-]. split; [discriminate|].
           intros s Hs. discriminate.
        -- split; [intros [e He]; discriminate | intros H; now apply Hquiet in H].
        -- intros v p m [= <- <- <-]. split; [eauto|].
           intros s Hs. discriminate.
      * split; [|intros v p m H; discriminate].
        split; [intros _; exists parsed; auto | eauto].
    + split; [|intros v p m H; discriminate].
      split; [intros _; exists parsed; eauto | eauto].
  - split.
    + split; [intros [e He]; discriminate|].
      intros (p & Hp & _). discriminate.
    + intros v p m [= <- <- <-]. split; [discriminate|].
      intros s [= <-]. auto.
Qed.

(** X20. Where [deposit] leaves nothing pending: when the prefix is foreign,
    and when the fetch returned, unless [xml_is_valid] accepted a tree that
    has no [doi_batch_id]. In those cases the session and the database agree
    when the call ends, exceptions included. *)
Theorem deposit_leaves_nothing_pending (E : Collaborators) (self : Depositor)
  (document : Document) (w : World) :
  (prefix_matches E self document = false
   \/ exists xml,
        articlemeta_document E (publisher_id document)
          (collection_acronym document) = Ok xml
        /\ match xml_is_valid E self xml with
           | Ok (true, PyTree tree, _) =>
               Xml.find (Xml.ns "doi_batch_id") tree <> None
           | _ => True
           end) ->
  session (snd (deposit E self document w))
  = committed (snd (deposit E self document w)).
Proof.
  intros Hcase. enter_deposit E self document w.
  destruct (prefix_matches E self document); cbn [negb];
    [|read_clock E; reflexivity].
  destruct Hcase as [Hp|(xml & Hfetch & Hvalid)]; [discriminate|].
  take_fetch Hfetch.
  destruct (xml_is_valid E self xml) as [[[v parsed] msg]|e];
    [|reflexivity].
  destruct parsed as [s|tree]; cbn [tostring]; [reflexivity|].
  destruct v; cbn [negb]; read_clock E; [|reflexivity].
  cbn [find_text].
  destruct (Xml.find (Xml.ns "doi_batch_id") tree) as [batch|];
    [read_clock E; reflexivity | congruence].
Qed.

Lemma deposit_leaves_nothing_pending_witness :
  session (snd (deposit Sample.E Sample.depositor Sample.malformed_doc
                  empty_world))
  = committed (snd (deposit Sample.E Sample.depositor Sample.malformed_doc
                      empty_world)).
Proof.
  apply deposit_leaves_nothing_pending.
  right. exists "<doi_batch". split; [reflexivity | exact I].
Defined.
